(** * StockAnalyzer: a shallow embedding of [stock_analyzer1.0.py]

    The script is one Python module built on pandas, tenacity and yfinance.
    This development embeds the functions of that module as Rocq functions:

    - [Py]            the Python values the script manipulates: exception
                      classes and their hierarchy, results of fallible
                      computations, and the [str] methods it calls;
    - [Tenacity]      the [@retry] decorator as configured by the script;
    - [Pandas]        the pandas objects and primitives the script calls
                      (frames, series, indexes, [tail], [max], [rolling],
                      partial-string [.loc], [tz_localize], [select_dtypes]);
    - [StockAnalyzer] the script itself, function by function, under the
                      names of the source;
    - [Spec]          the notions the properties are stated with;
    - [Examples]      sample inputs.

    The properties follow, grouped by component: statistics engine,
    normalizer, console, orchestrator.

    Text is modelled as ASCII strings, floating-point numbers as exact
    rationals together with NaN, timestamps as nanoseconds since the epoch. *)

From stdpp Require Import gmap strings list fin_maps.
From Stdlib Require Import Ascii ZArith QArith Lia.

Local Open Scope string_scope.
Local Open Scope Z_scope.

(* ===================================================================== *)
(** * Python values                                                       *)
(* ===================================================================== *)

Module Py.

(** ** Exceptions

    The built-in classes the script raises or names in an [except] clause,
    plus tenacity's [RetryError], which derives directly from [Exception]. *)

Inductive exc_class :=
  | BaseException | Exception
  | SystemExit | KeyboardInterrupt
  | ValueError | TypeError | AttributeError | EOFError
  | LookupError | KeyError | IndexError
  | OSError | TimeoutError | ConnectionError
  | RetryError.

(** The direct base class, as in the Python class hierarchy. *)
Definition base (c : exc_class) : option exc_class :=
  match c with
  | BaseException => None
  | Exception | SystemExit | KeyboardInterrupt => Some BaseException
  | ValueError | TypeError | AttributeError | EOFError
  | LookupError | OSError | RetryError => Some Exception
  | KeyError | IndexError => Some LookupError
  | TimeoutError | ConnectionError => Some OSError
  end.

Definition exc_class_eqb (a b : exc_class) : bool :=
  match a, b with
  | BaseException, BaseException | Exception, Exception
  | SystemExit, SystemExit | KeyboardInterrupt, KeyboardInterrupt
  | ValueError, ValueError | TypeError, TypeError
  | AttributeError, AttributeError | EOFError, EOFError
  | LookupError, LookupError | KeyError, KeyError | IndexError, IndexError
  | OSError, OSError | TimeoutError, TimeoutError
  | ConnectionError, ConnectionError | RetryError, RetryError => true
  | _, _ => false
  end.

(** [issubclass c d]: the hierarchy has depth three below [BaseException]. *)
Fixpoint issubclass_fuel (fuel : nat) (c d : exc_class) : bool :=
  exc_class_eqb c d ||
  match fuel, base c with
  | S f, Some b => issubclass_fuel f b d
  | _, _ => false
  end.

Definition issubclass (c d : exc_class) : bool := issubclass_fuel 4 c d.

(** A raised exception: its class and its message ([str(e)]); for
    [SystemExit] the message is unused and [exit_code] is the argument of
    [exit]. *)
Record exn := Exn { exn_class : exc_class; exn_msg : string; exit_code : Z }.

Definition mk_exn (c : exc_class) (msg : string) : exn := Exn c msg 1.

(** [except (c1, ..., cn)] catches [e] when it is an instance of one of them. *)
Definition caught_by (classes : list exc_class) (e : exn) : bool :=
  existsb (issubclass (exn_class e)) classes.

(** ** Fallible computations *)

Inductive result (A : Type) :=
  | Ok (a : A)
  | Raise (e : exn).
Arguments Ok {A} a.
Arguments Raise {A} e.

Definition rbind {A B} (r : result A) (k : A -> result B) : result B :=
  match r with
  | Ok a => k a
  | Raise e => Raise e
  end.

(** ** [str] methods, on ASCII text *)

Definition code (c : ascii) : N := Ascii.N_of_ascii c.

(** [str.isspace] for one character below 128: TAB, LF, VT, FF, CR,
    FS, GS, RS, US and the space. *)
Definition isspace (c : ascii) : bool :=
  let n := code c in
  ((9 <=? n) && (n <=? 13) || (28 <=? n) && (n <=? 32))%N.

Definition isdigit (c : ascii) : bool :=
  let n := code c in ((48 <=? n) && (n <=? 57))%N.

Definition lower_char (c : ascii) : ascii :=
  let n := code c in
  if ((65 <=? n) && (n <=? 90))%N then Ascii.ascii_of_N (n + 32) else c.

Definition upper_char (c : ascii) : ascii :=
  let n := code c in
  if ((97 <=? n) && (n <=? 122))%N then Ascii.ascii_of_N (n - 32) else c.

Fixpoint smap (f : ascii -> ascii) (s : string) : string :=
  match s with
  | EmptyString => EmptyString
  | String c r => String (f c) (smap f r)
  end.

Definition lower : string -> string := smap lower_char.
Definition upper : string -> string := smap upper_char.

Fixpoint lstrip (s : string) : string :=
  match s with
  | EmptyString => EmptyString
  | String c r => if isspace c then lstrip r else s
  end.

(** [rstrip] keeps a character when it is not a space or when something is
    left of the text after it. *)
Fixpoint rstrip (s : string) : string :=
  match s with
  | EmptyString => EmptyString
  | String c r =>
      match rstrip r with
      | EmptyString => if isspace c then EmptyString else String c EmptyString
      | r' => String c r'
      end
  end.

Definition strip (s : string) : string := rstrip (lstrip s).

(** [s.split(sep)] for a one-character separator: empty pieces are kept and
    the empty string splits into one empty piece. *)
Fixpoint split_on (sep : ascii) (s : string) : list string :=
  match s with
  | EmptyString => [EmptyString]
  | String c r =>
      if Ascii.eqb c sep then EmptyString :: split_on sep r
      else match split_on sep r with
           | p :: ps => String c p :: ps
           | [] => [String c EmptyString]
           end
  end.

(** [s.split()]: pieces between runs of whitespace, no empty piece. [cur] is
    the piece being read, in reverse. *)
Fixpoint split_ws_from (cur : list ascii) (s : string) : list string :=
  let flush := match cur with
               | [] => []
               | _ => [String.string_of_list_ascii (rev cur)]
               end in
  match s with
  | EmptyString => flush
  | String c r =>
      if isspace c then flush ++ split_ws_from [] r
      else split_ws_from (c :: cur) r
  end.

Definition split_ws (s : string) : list string := split_ws_from [] s.

(** [int(s)] in base ten: surrounding whitespace, an optional sign, then
    digits in groups separated by single underscores. [None] stands for the
    [ValueError] that [int] raises on anything else. *)
Fixpoint int_digits (acc : Z) (after_digit : bool) (s : string) : option Z :=
  match s with
  | EmptyString => if after_digit then Some acc else None
  | String c r =>
      if isdigit c then int_digits (10 * acc + (Z.of_N (code c) - 48)) true r
      else if Ascii.eqb c "_"%char
           then (if after_digit then int_digits acc false r else None)
           else None
  end.

Definition int (s : string) : option Z :=
  match strip s with
  | String "-" r => Z.opp <$> int_digits 0 false r
  | String "+" r => int_digits 0 false r
  | r => int_digits 0 false r
  end.

End Py.

(* ===================================================================== *)
(** * pandas objects and primitives                                       *)
(* ===================================================================== *)

Module Pandas.
Import Py.

(** ** Scalars *)

(** A [float64] cell: NaN (a missing observation, or a non-finite result)
    or a finite value, held exactly. *)
Inductive cell :=
  | NaN
  | Fin (q : Q).

(** A time zone gives, for an instant in nanoseconds since the epoch (UTC),
    the offset of local time from UTC at that instant, in nanoseconds. *)
Record tzinfo := { tzname : string; utcoffset : Z -> Z }.

(** pandas stores a timezone-aware timestamp as its UTC instant together with
    the zone, and a naive one as its wall-clock reading. [wall tz u] is the
    wall-clock reading of the stored value [u]. *)
Definition wall (tz : option tzinfo) (u : Z) : Z :=
  match tz with
  | None => u
  | Some z => u + utcoffset z u
  end.

Definition ns_per_day : Z := 86400 * 1000000000.

(** The calendar date of a wall-clock reading, in days since the epoch. *)
Definition date_of (w : Z) : Z := w / ns_per_day.

(** The Python values found in a dict or in a column of dtype [object]. *)
Inductive PyVal :=
  | VNone
  | VBool (b : bool)
  | VInt (z : Z)
  | VFloat (c : cell)
  | VStr (s : string)
  | VTimestamp (tz : option tzinfo) (i8 : Z)
  | VNaT
  | VDate (days : Z)
  | VObj (repr : string).

(** ** Columns, indexes, frames and series *)

Inductive Column :=
  | Float64 (l : list cell)
  | Int64 (l : list Z)
  | Bool (l : list bool)
  | Datetime64 (tz : option tzinfo) (l : list (option Z))
      (* datetime64[ns] when [tz] is [None], datetime64[ns, tz] otherwise;
         [None] in the list is NaT *)
  | Object (l : list PyVal).

Inductive Index :=
  | RangeIndex (n : nat)
  | DatetimeIndex (tz : option tzinfo) (l : list (option Z))
  | ObjectIndex (l : list PyVal).

(** A frame maps each column label to its column. *)
Record DataFrame := { index : Index; columns : gmap string Column }.

Record Series := { s_index : Index; s_name : option string; s_values : Column }.

Definition index_len (i : Index) : nat :=
  match i with
  | RangeIndex n => n
  | DatetimeIndex _ l => length l
  | ObjectIndex l => length l
  end.

(** [index.tz], and whether the index is a [DatetimeIndex]. *)
Definition index_tz (i : Index) : option tzinfo :=
  match i with
  | DatetimeIndex tz _ => tz
  | _ => None
  end.

Definition is_DatetimeIndex (i : Index) : bool :=
  match i with
  | DatetimeIndex _ _ => true
  | _ => false
  end.

(** The wall-clock readings of a date index, entry by entry, and their
    calendar dates. *)
Definition wall_clock (i : Index) : list (option Z) :=
  match i with
  | DatetimeIndex tz l => fmap (M := list) (fmap (M := option) (wall tz)) l
  | _ => []
  end.

Definition dates (i : Index) : list (option Z) :=
  fmap (M := list) (fmap (M := option) date_of) (wall_clock i).

(** [DataFrame.empty]: one of the two axes has length zero. *)
Definition frame_empty (df : DataFrame) : bool :=
  (index_len (index df) =? 0)%nat || (size (columns df) =? 0)%nat.

(** [Series.empty] *)
Definition series_empty (s : Series) : bool := (index_len (s_index s) =? 0)%nat.

(** [pd.DataFrame([d])] for one dict [d]: one row, one column per key, the
    dtype of each column inferred from its single value. *)
Definition column_of_value (v : PyVal) : Column :=
  match v with
  | VBool b => Bool [b]
  | VInt z => Int64 [z]
  | VFloat c => Float64 [c]
  | VTimestamp tz u => Datetime64 tz [Some u]
  | VNaT => Datetime64 None [None]
  | VNone | VStr _ | VDate _ | VObj _ => Object [v]
  end.

Definition DataFrame_from_row (d : gmap string PyVal) : DataFrame :=
  {| index := RangeIndex 1; columns := column_of_value <$> d |}.

(** The value of a column at position [i] ([Series.iat]). *)
Definition iat (c : Column) (i : nat) : option PyVal :=
  match c with
  | Float64 l => VFloat <$> l !! i
  | Int64 l => VInt <$> l !! i
  | Bool l => VBool <$> l !! i
  | Datetime64 tz l => (fun o => match o with
                                 | Some u => VTimestamp tz u
                                 | None => VNaT
                                 end) <$> l !! i
  | Object l => l !! i
  end.

(** Row [i] of a frame as a mapping from column label to value. *)
Definition row (df : DataFrame) (i : nat) : gmap string PyVal :=
  omap (fun c => iat c i) (columns df).

(** ** Time zones *)

(** [tz_localize(None)] on stored values: a timezone-aware array is replaced
    by its wall-clock readings, a naive one is unchanged; NaT stays NaT. *)
Definition tz_localize_none (tz : option tzinfo) (l : list (option Z))
  : list (option Z) :=
  fmap (M := list) (fmap (M := option) (wall tz)) l.

(** [Series.dt.tz_localize(None)]; the [.dt] accessor exists on datetime
    columns only. *)
Definition dt_tz_localize_none (c : Column) : result Column :=
  match c with
  | Datetime64 tz l => Ok (Datetime64 None (tz_localize_none tz l))
  | _ => Raise (mk_exn AttributeError
                  "Can only use .dt accessor with datetimelike values")
  end.

(** [Series.dt.date]: a column of [datetime.date] objects, dtype [object]. *)
Definition dt_date (c : Column) : result Column :=
  match c with
  | Datetime64 tz l =>
      Ok (Object ((fun o => match o with
                            | Some u => VDate (date_of (wall tz u))
                            | None => VNaT
                            end) <$> l))
  | _ => Raise (mk_exn AttributeError
                  "Can only use .dt accessor with datetimelike values")
  end.

(** [pd.to_datetime(column)]: a datetime column is returned as it is; the
    conversion of any other column (parsing text, reading numbers as epochs)
    is the function [parse], which may raise. *)
Definition to_datetime (parse : Column -> result Column) (c : Column)
  : result Column :=
  match c with
  | Datetime64 _ _ => Ok c
  | _ => parse c
  end.

(** [pd.api.types.is_datetime64_any_dtype]: a test on the dtype, never on the
    values. *)
Definition is_datetime64_any_dtype (c : Column) : bool :=
  match c with
  | Datetime64 _ _ => true
  | _ => false
  end.

(** ** [select_dtypes] *)

(** The dtype strings the script passes in [include]. *)
Inductive dtype_str :=
  | datetime64_ns                  (* 'datetime64[ns]' *)
  | datetime64_ns_tz (tz : string) (* 'datetime64[ns, <tz>]' *)
  | object_.                       (* 'object' *)

(** The scalar type of a dtype ([dtype.type]). *)
Inductive scalar_type :=
  | np_datetime64 | pd_Timestamp | np_object | np_float64 | np_int64 | np_bool.

Definition scalar_type_eqb (a b : scalar_type) : bool :=
  match a, b with
  | np_datetime64, np_datetime64 | pd_Timestamp, pd_Timestamp
  | np_object, np_object | np_float64, np_float64
  | np_int64, np_int64 | np_bool, np_bool => true
  | _, _ => false
  end.

(** [infer_dtype_from_object]: a timezone-aware dtype string, whatever its
    zone, is an extension dtype whose scalar type is [Timestamp]. *)
Definition infer_dtype_from_object (s : dtype_str) : scalar_type :=
  match s with
  | datetime64_ns => np_datetime64
  | datetime64_ns_tz _ => pd_Timestamp
  | object_ => np_object
  end.

Definition dtype_type (c : Column) : scalar_type :=
  match c with
  | Float64 _ => np_float64
  | Int64 _ => np_int64
  | Bool _ => np_bool
  | Datetime64 None _ => np_datetime64
  | Datetime64 (Some _) _ => pd_Timestamp
  | Object _ => np_object
  end.

(** A column is selected when the scalar type of its dtype is one of the
    scalar types inferred from [include]. *)
Definition dtype_selected (include : list dtype_str) (c : Column) : bool :=
  existsb (fun s => scalar_type_eqb (dtype_type c) (infer_dtype_from_object s))
          include.

(** [df.select_dtypes(include=...).columns]: the labels of the selected
    columns. Each label names one column, and a loop over these labels
    touches one column per step, so their order does not matter. *)
Definition select_dtypes (include : list dtype_str) (df : DataFrame)
  : list string :=
  (filter (fun kc => dtype_selected include kc.2 = true)
          (map_to_list (columns df))).*1.

(** [df[col]]: [KeyError] for a label the frame does not have. *)
Definition getitem (df : DataFrame) (col : string) : result Column :=
  match columns df !! col with
  | Some c => Ok c
  | None => Raise (mk_exn KeyError col)
  end.

(** [df[col] = c] *)
Definition setitem (df : DataFrame) (col : string) (c : Column) : DataFrame :=
  {| index := index df; columns := <[col := c]> (columns df) |}.

(** ** Reductions and windows on a [float64] column *)

(** Reductions skip NaN ([skipna=True]): they see the finite values only. *)
Definition finite_values (l : list cell) : list Q :=
  omap (fun c => match c with Fin q => Some q | NaN => None end) l.

Definition Qmax (a b : Q) : Q := if Qle_bool a b then b else a.
Definition Qmin (a b : Q) : Q := if Qle_bool a b then a else b.

(** [Series.max()] and [Series.min()]: NaN when no value is present. *)
Definition series_max (l : list cell) : cell :=
  match finite_values l with
  | [] => NaN
  | q :: qs => Fin (foldl Qmax q qs)
  end.

Definition series_min (l : list cell) : cell :=
  match finite_values l with
  | [] => NaN
  | q :: qs => Fin (foldl Qmin q qs)
  end.

(** [Series.tail(n)]: the last [n] rows, all of them when there are fewer. *)
Definition tail {A} (n : nat) (l : list A) : list A :=
  drop (length l - n) l.

(** [Series.iloc[-1]] and [Series.iloc[0]]: [IndexError] on an empty series. *)
Definition iloc_last {A} (l : list A) : result A :=
  match last l with
  | Some a => Ok a
  | None => Raise (mk_exn IndexError "single positional indexer is out-of-bounds")
  end.

Definition iloc_first {A} (l : list A) : result A :=
  match l with
  | a :: _ => Ok a
  | [] => Raise (mk_exn IndexError "single positional indexer is out-of-bounds")
  end.

Definition Qsum (qs : list Q) : Q := foldr Qplus 0%Q qs.

(** The arithmetic mean of a list of values. *)
Definition mean (qs : list Q) : Q :=
  (Qsum qs / inject_Z (Z.of_nat (length qs)))%Q.

(** The mean of one window: NaN unless the window holds at least
    [min_periods] observations (finite values). *)
Definition window_mean (min_periods : nat) (win : list cell) : cell :=
  let obs := finite_values win in
  if (length obs <? min_periods)%nat then NaN else Fin (mean obs).

(** [Series.rolling(window=w).mean()]: at each row, the mean of the window of
    the [w] rows ending there (fewer at the start of the series).
    [min_periods] is not passed, so it is the window size. *)
Definition rolling_mean (window : nat) (l : list cell) : list cell :=
  (fun i => window_mean window (tail window (take (S i) l)))
    <$> seq 0 (length l).

(** ** Partial-string indexing of a date index by a year *)

(** Days from 1970-01-01 to the first of January of year [y] (proleptic
    Gregorian calendar), and that instant in nanoseconds. *)
Definition days_before_year (y : Z) : Z :=
  let p := y - 1 in 365 * p + p / 4 - p / 100 + p / 400 - 719162.

Definition year_start (y : Z) : Z := days_before_year y * ns_per_day.

Fixpoint is_monotonic_increasing (l : list Z) : bool :=
  match l with
  | a :: (b :: _) as r => (a <=? b) && is_monotonic_increasing r
  | _ => true
  end.

(** [searchsorted] on a sorted array: the length of the prefix of values
    below [t] (side left) or not above [t] (side right). *)
Fixpoint searchsorted_left (t : Z) (l : list Z) : nat :=
  match l with
  | v :: r => if v <? t then S (searchsorted_left t r) else 0%nat
  | [] => 0%nat
  end.

Fixpoint searchsorted_right (t : Z) (l : list Z) : nat :=
  match l with
  | v :: r => if v <=? t then S (searchsorted_right t r) else 0%nat
  | [] => 0%nat
  end.

(** [series.loc[str(year)]] on a series indexed by naive timestamps [idx].
    The year string stands for the bounds [t1, t2] of that year. On a sorted
    index a year wholly before the first or wholly after the last row is a
    [KeyError]; otherwise the rows between the two insertion points are
    returned, possibly none. On an unsorted index the rows inside the bounds
    are returned. *)
Definition loc_year {A} (year : Z) (idx : list Z) (values : list A)
  : result (list A) :=
  let t1 := year_start year in
  let t2 := year_start (year + 1) - 1 in
  if is_monotonic_increasing idx then
    let out_of_range :=
      match idx, last idx with
      | first :: _, Some final =>
          (t1 <? first) && (t2 <? first) || (final <? t1) && (final <? t2)
      | _, _ => false
      end in
    if out_of_range then Raise (mk_exn KeyError "year")
    else
      let left := searchsorted_left t1 idx in
      let right := searchsorted_right t2 idx in
      Ok (take (right - left) (drop left values))
  else
    Ok ((filter (fun tv => t1 <= tv.1 <= t2) (zip idx values)).*2).

(** ** Arithmetic on cells *)

(** [(a / b - 1) * 100]; a NaN operand gives NaN, and so does a zero divisor,
    whose floating-point result is not finite. *)
Definition pct_change_of (a b : cell) : cell :=
  match a, b with
  | Fin x, Fin y =>
      if Qeq_bool y 0 then NaN else Fin ((x / y - 1) * 100)%Q
  | _, _ => NaN
  end.

End Pandas.

(* ===================================================================== *)
(** * tenacity's retry decorator                                          *)
(* ===================================================================== *)

Module Tenacity.
Import Py.

(** The options of [@retry] the script depends on. It passes [stop] and
    [wait] only: [retry] keeps its default [retry_if_exception_type()]
    (retry on any instance of [Exception]) and [reraise] its default
    [False]. *)
Record Retrying := { max_attempt_number : Z; reraise : bool }.

Definition stop_after_attempt (n : Z) : Retrying :=
  {| max_attempt_number := n; reraise := false |}.

Section Call.
Context {St A : Type}.
Variable sleep : St -> St.
Variable r : Retrying.
Variable fn : St -> result A * St.

(** One attempt and what follows it. [remaining] counts the attempts left
    after this one: attempt [k] is the last when [k >= max_attempt_number].
    A result is returned; an exception that is not an [Exception] is not
    retried and propagates; after the last attempt the last exception is
    re-raised when [reraise] is set and wrapped in [RetryError] otherwise. *)
Fixpoint attempts (remaining : nat) (st : St) : result A * St :=
  match fn st with
  | (Ok a, st') => (Ok a, st')
  | (Raise e, st') =>
      if negb (issubclass (exn_class e) Exception) then (Raise e, st')
      else
        match remaining with
        | O => if reraise r then (Raise e, st')
               else (Raise (mk_exn RetryError "RetryError"), st')
        | S n => attempts n (sleep st')
        end
  end.

Definition call : St -> result A * St :=
  attempts (Z.to_nat (max_attempt_number r - 1)).
End Call.

End Tenacity.

(* ===================================================================== *)
(** * The script                                                          *)
(* ===================================================================== *)

Module StockAnalyzer.
Import Py Pandas.

(** ** Configuration *)

Record Config := {
  output_directory : string;
  default_period : string;
  generate_plots : bool;
  generate_summary : bool;
  retries : Z;
  data_types : list string;
  export_formats : list string
}.

(** The built-in configuration, used when [config.json] is missing.
    [default_analysis_dir] is the absolute path of [Analysis] under the
    working directory. *)
Definition default_CONFIG (default_analysis_dir : string) : Config := {|
  output_directory := default_analysis_dir;
  default_period := "2y";
  generate_plots := true;
  generate_summary := true;
  retries := 3;
  data_types := ["financials"; "quarterly_financials";
                 "balance_sheet"; "quarterly_balance_sheet";
                 "cashflow"; "quarterly_cashflow";
                 "dividends"; "splits"; "info"];
  export_formats := ["excel"]
|}.

Definition DATA_TYPE_DESCRIPTIONS : list (string * string) :=
  [ ("historical", "Price and volume history");
    ("financials", "Annual financial statements");
    ("quarterly_financials", "Quarterly financial statements");
    ("balance_sheet", "Annual balance sheet");
    ("quarterly_balance_sheet", "Quarterly balance sheet");
    ("cashflow", "Annual cash flow");
    ("quarterly_cashflow", "Quarterly cash flow");
    ("dividends", "Dividend history");
    ("splits", "Stock split history");
    ("info", "Company information") ].

(** ** The process: console, configuration, provider *)

Inductive prompt := AskDataTypes | AskTickers | AskPeriod | AskOutputDir.

(** What the process prints or logs, one event per message of the source
    (the fixed explanatory lines around a prompt belong to its event). *)
Inductive event :=
  | Header                                   (* the title and STEP 1 lines *)
  | Menu                                     (* the numbered data types *)
  | Input (p : prompt)                       (* input(prompt) read a line *)
  | Goodbye                                  (* "Exiting ... Goodbye!" *)
  | SelectedAll                              (* "Selected: All data types" *)
  | Selected (types : list string)           (* "Selected: a, b, c" *)
  | InvalidSelection                         (* "Invalid selection, ..." *)
  | Processing (n : nat)                     (* "Processing n ticker(s)..." *)
  | Analyzing (i n : nat) (ticker : string)  (* "[i/n] Analyzing T..." *)
  | Downloading (ticker : string)            (* log: "Downloading T data..." *)
  | Saved (ticker : string)                  (* log: "Data saved to: ..." *)
  | ErrorAnalyzing (ticker : string) (e : exn) (* log: "Error analyzing T" *)
  | Backoff                                  (* the wait between attempts *)
  | ErrorProcessing (ticker : string) (e : exn) (* "Error processing T" *)
  | Complete (dir : string).                 (* the completion banner *)

(** What the outside world does during one attempt on a ticker: creating the
    ticker directory, the provider's answer to [history], and the outcome of
    the rest of the sequence (chart, per-dataset exports, summary workbook),
    which returns the exported data types. *)
Record Fetch := {
  makedirs : result unit;
  history : result DataFrame;
  export : result (list string)
}.

Record World := {
  stdin : list string;     (* the lines still to be read *)
  stdout : list event;     (* what was printed and logged, oldest first *)
  CONFIG : Config;
  calls : nat              (* attempts made on the provider so far *)
}.

Definition M (A : Type) : Type := World -> result A * World.

Definition ret {A} (a : A) : M A := fun w => (Ok a, w).

Definition bind {A B} (m : M A) (k : A -> M B) : M B :=
  fun w => match m w with
           | (Ok a, w') => k a w'
           | (Raise e, w') => (Raise e, w')
           end.

Definition raise {A} (e : exn) : M A := fun w => (Raise e, w).

Definition lift {A} (r : result A) : M A := fun w => (r, w).

Declare Scope py_scope.
Delimit Scope py_scope with py.
Notation "x <- c ;; k" := (bind c (fun x => k))
  (at level 100, c at next level, right associativity) : py_scope.
Notation "c ;; k" := (bind c (fun _ => k))
  (at level 100, right associativity) : py_scope.
Local Open Scope py_scope.

(** [try: body except (classes) as e: handler e] *)
Definition try_except {A} (body : M A) (classes : list exc_class)
    (handler : exn -> M A) : M A :=
  fun w => match body w with
           | (Ok a, w') => (Ok a, w')
           | (Raise e, w') =>
               if caught_by classes e then handler e w' else (Raise e, w')
           end.

Definition emit (e : event) : M unit :=
  fun w => (Ok tt, {| stdin := stdin w; stdout := stdout w ++ [e];
                      CONFIG := CONFIG w; calls := calls w |}).

Definition get_CONFIG : M Config := fun w => (Ok (CONFIG w), w).

Definition set_CONFIG (c : Config) : M unit :=
  fun w => (Ok tt, {| stdin := stdin w; stdout := stdout w;
                      CONFIG := c; calls := calls w |}).

(** [input(prompt)]: the next line of standard input, [EOFError] at its end. *)
Definition input (p : prompt) : M string :=
  fun w => match stdin w with
           | line :: rest =>
               (Ok line, {| stdin := rest; stdout := stdout w ++ [Input p];
                            CONFIG := CONFIG w; calls := calls w |})
           | [] => (Raise (mk_exn EOFError "EOF when reading a line"), w)
           end.

(** ** Interactive selector *)

Definition safe_input (p : prompt) : M string :=
  value <- input p ;;
  if String.eqb (lower (strip value)) "exit"
  then (emit Goodbye ;; raise (Exn SystemExit "" 0))
  else ret value.

Definition keys : list string := DATA_TYPE_DESCRIPTIONS.*1.

(** [[int(x.strip()) - 1 for x in selected.split(',')]]: the [ValueError]
    of the first [int] that fails, if any. *)
Definition parse_indices (selected : string) : result (list Z) :=
  match mapM (fun x => (fun n => n - 1) <$> int (strip x))
             (split_on "," selected) with
  | Some indices => Ok indices
  | None => Raise (mk_exn ValueError "invalid literal for int() with base 10")
  end.

(** [[keys[i] for i in indices if 0 <= i < len(keys)]] *)
Definition pick (indices : list Z) : list string :=
  omap (fun i => if (0 <=? i) && (i <? Z.of_nat (length keys))
                 then keys !! Z.to_nat i else None) indices.

Definition select_data_types : M (list string) :=
  emit Menu ;;
  raw <- safe_input AskDataTypes ;;
  let selected := strip raw in
  if String.eqb selected "" || String.eqb selected "0"
  then (emit SelectedAll ;; ret keys)
  else
    try_except
      (indices <- lift (parse_indices selected) ;;
       let selected_types := pick indices in
       match selected_types with
       | _ :: _ => emit (Selected selected_types) ;; ret selected_types
       | [] => raise (mk_exn ValueError "No valid selections")
       end)
      [ValueError; IndexError]
      (fun _ => emit InvalidSelection ;; ret keys).

(** ** Normalizer *)

(** The values [handle_data] can be given: what an attribute of the
    provider's ticker object holds. [OOther a] is any object that is neither
    a dict nor a pandas frame or series; [a] is the truth value of its
    attribute [empty] when it has one. *)
Inductive PyObj :=
  | ONone
  | ODict (d : gmap string PyVal)
  | OFrame (df : DataFrame)
  | OSeries (s : Series)
  | OOther (empty_attr : option bool).

(** [hasattr(data, 'empty') and data.empty] *)
Definition has_true_empty (data : PyObj) : bool :=
  match data with
  | OFrame df => frame_empty df
  | OSeries s => series_empty s
  | OOther (Some b) => b
  | ONone | ODict _ | OOther None => false
  end.

Definition is_None (data : PyObj) : bool :=
  match data with ONone => true | _ => false end.

Definition handle_data (data : PyObj) (data_type : option string) : PyObj :=
  if is_None data || has_true_empty data then ONone
  else
    match data_type, data with
    | Some dt, ODict d =>
        if String.eqb dt "info" then OFrame (DataFrame_from_row d) else ONone
    | _, OFrame _ | _, OSeries _ => data
    | _, _ => ONone
    end.

Notation "'let*' x := c 'in' k" := (rbind c (fun x => k))
  (at level 10, x name, c at level 100, k at level 200, only parsing).

(** [for x in xs: acc = step(acc, x)] where a step may raise. *)
Fixpoint for_each {A B} (step : A -> B -> result A) (acc : A) (xs : list B)
  : result A :=
  match xs with
  | [] => Ok acc
  | x :: rest => let* acc' := step acc x in for_each step acc' rest
  end.

Section Normalizer.
(** [pd.to_datetime] on a column that is not a datetime column. *)
Variable parse : Column -> result Column.

Definition datetime_dtypes : list dtype_str :=
  [datetime64_ns; datetime64_ns_tz "UTC"; datetime64_ns_tz "US/Eastern"].

(** [df.index = df.index.tz_localize(None)] when the index is a
    [DatetimeIndex] that has a time zone. *)
Definition strip_index (i : Index) : Index :=
  match i with
  | DatetimeIndex (Some tz) l => DatetimeIndex None (tz_localize_none (Some tz) l)
  | _ => i
  end.

(** [df[col] = pd.to_datetime(df[col]).dt.tz_localize(None)] *)
Definition localize_column (df : DataFrame) (col : string) : result DataFrame :=
  let* c := getitem df col in
  let* d := to_datetime parse c in
  let* n := dt_tz_localize_none d in
  Ok (setitem df col n).

(** The body of the loop over object columns, with its [try]. *)
Definition coerce_object_column (df : DataFrame) (col : string)
  : result DataFrame :=
  let attempt :=
    let* c := getitem df col in
    if is_datetime64_any_dtype c then
      let* d := to_datetime parse c in
      let* n := dt_date d in
      Ok (setitem df col n)
    else Ok df in
  match attempt with
  | Ok df' => Ok df'
  | Raise e => if caught_by [ValueError; TypeError] e then Ok df else Raise e
  end.

Definition remove_timezone_frame (df : DataFrame) : result DataFrame :=
  let df := {| index := strip_index (index df); columns := columns df |} in
  let datetime_cols := select_dtypes datetime_dtypes df in
  let* df := for_each localize_column df datetime_cols in
  let object_cols := select_dtypes [object_] df in
  for_each coerce_object_column df object_cols.

(** [hasattr(s, 'dt') and s.dt.tz is not None] *)
Definition has_tz (c : Column) : bool :=
  match c with
  | Datetime64 (Some _) _ => true
  | _ => false
  end.

Definition remove_timezone_series (s : Series) : result Series :=
  let s := {| s_index := strip_index (s_index s); s_name := s_name s;
              s_values := s_values s |} in
  if is_datetime64_any_dtype (s_values s) && has_tz (s_values s) then
    let* v := dt_tz_localize_none (s_values s) in
    Ok {| s_index := s_index s; s_name := s_name s; s_values := v |}
  else Ok s.

(** What [remove_timezone] is applied to: [None], a frame or a series.
    [df.copy()] is the identity on values. *)
Inductive table :=
  | Frame (df : DataFrame)
  | Ser (s : Series).

Definition remove_timezone (df : option table) : result (option table) :=
  match df with
  | None => Ok None
  | Some (Frame f) => let* f' := remove_timezone_frame f in Ok (Some (Frame f'))
  | Some (Ser s) => let* s' := remove_timezone_series s in Ok (Some (Ser s'))
  end.
End Normalizer.

(** ** Statistics engine *)

(** One row of the historical frame after normalisation: the naive timestamp
    of the session and its [float64] columns. *)
Record HistRow := {
  Date : Z;
  Open : cell;
  High : cell;
  Low : cell;
  Close : cell;
  Volume : cell
}.

(** The metrics of the summary that are numbers or percentages of numbers,
    unformatted. The annualised volatility (a standard deviation and a square
    root) and the one-month return (a calendar resampling) are computed from
    the Close column by pandas reductions that do not raise on such a frame
    and feed no other metric; they are left out. *)
Record Analysis := {
  Current_Price : cell;
  High_52w : cell;
  Low_52w : cell;
  Distance_from_52w_High : cell;
  Distance_from_52w_Low : cell;
  MA_50 : cell;
  MA_200 : cell;
  Return_YTD : cell
}.

(** [hist_data['High'].tail(252).max()] and
    [hist_data['Low'].tail(252).min()] *)
Definition high_52w (hist_data : list HistRow) : cell :=
  series_max (tail 252 (High <$> hist_data)).

Definition low_52w (hist_data : list HistRow) : cell :=
  series_min (tail 252 (Low <$> hist_data)).

(** [hist_data['Close'].rolling(window=w).mean().iloc[-1]] *)
Definition moving_average (w : nat) (hist_data : list HistRow) : result cell :=
  iloc_last (rolling_mean w (Close <$> hist_data)).

(** [hist_data['Close'].loc[str(datetime.now().year)].iloc[0]] *)
Definition ytd_start_price (now_year : Z) (hist_data : list HistRow)
  : result cell :=
  let* this_year := loc_year now_year (Date <$> hist_data) (Close <$> hist_data) in
  iloc_first this_year.

Definition analyze_stock_data (now_year : Z) (hist_data : list HistRow)
  : result Analysis :=
  let* latest_price := iloc_last (Close <$> hist_data) in
  let high := high_52w hist_data in
  let low := low_52w hist_data in
  let* ytd_start := ytd_start_price now_year hist_data in
  let ytd_return := pct_change_of latest_price ytd_start in
  let* ma50 := moving_average 50 hist_data in
  let* ma200 := moving_average 200 hist_data in
  Ok {| Current_Price := latest_price;
        High_52w := high;
        Low_52w := low;
        Distance_from_52w_High := pct_change_of latest_price high;
        Distance_from_52w_Low := pct_change_of latest_price low;
        MA_50 := ma50;
        MA_200 := ma200;
        Return_YTD := ytd_return |}.

(** ** Orchestrator *)

Section Orchestrator.
Variable parse : Column -> result Column.
(** [os.path.abspath] *)
Variable abspath : string -> string.
(** The outside world at each attempt: ticker, period, output directory
    and the number of attempts made before. *)
Variable provider : string -> string -> string -> nat -> Fetch.

Definition fetch (ticker period output_dir : string) : M Fetch :=
  fun w => (Ok (provider ticker period output_dir (calls w)),
            {| stdin := stdin w; stdout := stdout w; CONFIG := CONFIG w;
               calls := S (calls w) |}).

(** The function under the decorator: one attempt. *)
Definition analyze_stock_once (ticker period output_dir : string)
  : M (list string) :=
  try_except
    (emit (Downloading ticker) ;;
     f <- fetch ticker period output_dir ;;
     lift (makedirs f) ;;
     hist_data <- lift (history f) ;;
     if frame_empty hist_data
     then raise (mk_exn ValueError "No historical data available")
     else
       (_hist <- lift (remove_timezone_frame parse hist_data) ;;
        exported <- lift (export f) ;;
        emit (Saved ticker) ;;
        ret exported))
    [Exception]
    (fun e => emit (ErrorAnalyzing ticker e) ;; raise e).

Definition backoff (w : World) : World :=
  {| stdin := stdin w; stdout := stdout w ++ [Backoff];
     CONFIG := CONFIG w; calls := calls w |}.

(** [@retry(stop=stop_after_attempt(CONFIG['retries']), wait=...)] *)
Definition analyze_stock (ticker period output_dir : string)
  : M (list string) :=
  fun w =>
    Tenacity.call backoff (Tenacity.stop_after_attempt (retries (CONFIG w)))
                  (analyze_stock_once ticker period output_dir) w.

Record Args := { tickers : list string; period : string; output : string }.

(** The loop over [enumerate(args.tickers, 1)]; [i] is the number of the
    first ticker of [todo] and [n] is [len(args.tickers)]. *)
Fixpoint batch (n i : nat) (todo : list string) (period output : string)
  : M unit :=
  match todo with
  | [] => ret tt
  | ticker_symbol :: rest =>
      try_except
        (emit (Analyzing i n ticker_symbol) ;;
         analyze_stock ticker_symbol period output ;;
         ret tt)
        [ValueError; TypeError; KeyError; OSError]
        (fun e => emit (ErrorProcessing ticker_symbol e)) ;;
      batch n (S i) rest period output
  end.

Definition set_data_types (l : list string) (c : Config) : Config :=
  {| output_directory := output_directory c; default_period := default_period c;
     generate_plots := generate_plots c; generate_summary := generate_summary c;
     retries := retries c; data_types := l; export_formats := export_formats c |}.

Definition set_output_directory (d : string) (c : Config) : Config :=
  {| output_directory := d; default_period := default_period c;
     generate_plots := generate_plots c; generate_summary := generate_summary c;
     retries := retries c; data_types := data_types c;
     export_formats := export_formats c |}.

(** STEP 2 and STEP 3, the block under [if not args.tickers]. *)
Definition ask_tickers_and_period (args : Args) : M Args :=
  match tickers args with
  | [] =>
      tickers_input <- safe_input AskTickers ;;
      period_input <- safe_input AskPeriod ;;
      c <- get_CONFIG ;;
      ret {| tickers := split_ws (upper tickers_input);
             period := if String.eqb period_input ""
                       then default_period c else period_input;
             output := output args |}
  | _ => ret args
  end.

(** [not args.output or os.path.abspath(args.output) == resolved_default_dir] *)
Definition asks_output_dir (args : Args) (c : Config) : bool :=
  String.eqb (output args) ""
  || String.eqb (abspath (output args)) (abspath (output_directory c)).

(** STEP 4, the prompt for the output directory. *)
Definition ask_output_dir (args : Args) : M Args :=
  c <- get_CONFIG ;;
  let resolved_default_dir := abspath (output_directory c) in
  if asks_output_dir args c then
    raw <- safe_input AskOutputDir ;;
    let user_dir := strip raw in
    let dir := if String.eqb user_dir ""
               then resolved_default_dir else user_dir in
    set_CONFIG (set_output_directory dir c) ;;
    ret {| tickers := tickers args; period := period args; output := dir |}
  else ret args.

(** The block under [if __name__ == "__main__"]. *)
Definition main (args : Args) : M unit :=
  emit Header ;;
  selected <- select_data_types ;;
  c <- get_CONFIG ;;
  set_CONFIG (set_data_types selected c) ;;
  args <- ask_tickers_and_period args ;;
  args <- ask_output_dir args ;;
  emit (Processing (length (tickers args))) ;;
  batch (length (tickers args)) 1 (tickers args) (period args) (output args) ;;
  c <- get_CONFIG ;;
  emit (Complete (output_directory c)).

(** How the process ends. *)
Inductive termination :=
  | Finished                (* ran to the end of the script: exit code 0 *)
  | Exit (code : Z)         (* SystemExit *)
  | Traceback (e : exn).    (* an uncaught exception: exit code 1 *)

Definition exit_status (t : termination) : Z :=
  match t with
  | Finished => 0
  | Exit n => n
  | Traceback _ => 1
  end.

Definition run (args : Args) (w : World) : list event * termination :=
  match main args w with
  | (Ok _, w') => (stdout w', Finished)
  | (Raise e, w') =>
      (stdout w',
       if issubclass (exn_class e) SystemExit then Exit (exit_code e)
       else Traceback e)
  end.
End Orchestrator.

End StockAnalyzer.

(* ===================================================================== *)
(** * Notions used to state the properties                                *)
(* ===================================================================== *)

Module Spec.
Import Py Pandas StockAnalyzer.
Local Open Scope py_scope.



(** A column without its time zone: the wall-clock readings of a datetime
    column, any other column as it is. *)
Definition strip_column (c : Column) : Column :=
  match c with
  | Datetime64 tz l => Datetime64 None (tz_localize_none tz l)
  | _ => c
  end.

(** The world after [evs] were printed and the input moved on to [rest]. *)
Definition push (w : World) (evs : list event) (rest : list string) : World :=
  {| stdin := rest; stdout := stdout w ++ evs;
     CONFIG := CONFIG w; calls := calls w |}.

(** [SystemExit(0)], what [exit(0)] raises. *)
Definition exit0 : exn := Exn SystemExit "" 0.

(** The data types of the menu, in the order it shows them. *)
Definition all_types : list string :=
  ["historical"; "financials"; "quarterly_financials"; "balance_sheet";
   "quarterly_balance_sheet"; "cashflow"; "quarterly_cashflow";
   "dividends"; "splits"; "info"].

(** The numbers typed at the menu, as the user reads them (from 1); [None]
    when a piece between commas is not an integer. *)
Definition numbers (answer : string) : option (list Z) :=
  mapM (fun x => int (strip x)) (split_on "," answer).

(** The data types that the numbers of an answer stand for: a number [n]
    from 1 to 10 is the [n]-th data type of the menu, any other number
    stands for nothing. *)
Definition chosen (ns : list Z) : list string :=
  omap (fun n => if (1 <=? n) && (n <=? 10)
                 then all_types !! Z.to_nat (n - 1) else None) ns.

(** The selection and the message for an answer that is not the sentinel. *)
Definition selection (answer : string) : list string * event :=
  if String.eqb answer "" || String.eqb answer "0" then (all_types, SelectedAll)
  else match numbers answer with
       | None => (all_types, InvalidSelection)
       | Some ns =>
           match chosen ns with
           | [] => (all_types, InvalidSelection)
           | sel => (sel, Selected sel)
           end
       end.

(** The world once [main] has stored the selection made by [line]. *)
Definition selected_world (w : World) (line : string) (rest : list string)
  : World :=
  {| stdin := rest;
     stdout := stdout w ++ [Header; Menu; Input AskDataTypes;
                            (selection (strip line)).2];
     CONFIG := set_data_types (selection (strip line)).1 (CONFIG w);
     calls := calls w |}.

(** [main] from STEP 2 on. *)
Definition after_selection (parse : Column -> result Column)
    (abspath : string -> string)
    (provider : string -> string -> string -> nat -> Fetch)
    (args : Args) : M unit :=
  args <- ask_tickers_and_period args ;;
  args <- ask_output_dir abspath args ;;
  emit (Processing (length (tickers args))) ;;
  batch parse provider (length (tickers args)) 1 (tickers args)
        (period args) (output args) ;;
  c <- get_CONFIG ;;
  emit (Complete (output_directory c)).

Definition no_data : exn := mk_exn ValueError "No historical data available".
Definition retry_error : exn := mk_exn RetryError "RetryError".

(** What is logged for a ticker whose every attempt finds no data: the first
    attempt, then [k] more, each after a wait. *)
Fixpoint exhausted_log (ticker : string) (k : nat) : list event :=
  [Downloading ticker; ErrorAnalyzing ticker no_data] ++
  match k with
  | O => []
  | S k' => Backoff :: exhausted_log ticker k'
  end.

(** An empty container, in the plain sense of the words: a dict without
    keys, or a frame or series that pandas counts as empty. *)
Definition empty_container (data : PyObj) : bool :=
  match data with
  | ODict d => bool_decide (d = ∅)
  | OFrame df => frame_empty df
  | OSeries s => series_empty s
  | ONone | OOther _ => false
  end.

End Spec.

(* ===================================================================== *)
(** * Sample inputs                                                       *)
(* ===================================================================== *)

Module Examples.
Import Py Pandas StockAnalyzer Spec.

Definition utc : tzinfo := {| tzname := "UTC"; utcoffset := fun _ => 0 |}.

(** Japan Standard Time: nine hours ahead of UTC all year. *)
Definition tokyo : tzinfo :=
  {| tzname := "Asia/Tokyo"; utcoffset := fun _ => 9 * 3600 * 1000000000 |}.

(** 2024-01-04 and 2024-01-05, midnight in Tokyo, as UTC instants. *)
Definition tokyo_frame : DataFrame :=
  {| index := DatetimeIndex (Some tokyo)
                [Some 1704294000000000000; Some 1704380400000000000];
     columns := {[ "Close" := Float64 [Fin 100; Fin 101] ]} |}.

(** An object column holding timestamps of two different zones. *)
Definition mixed_zones : list PyVal :=
  [VTimestamp (Some utc) 1704153600000000000;
   VTimestamp (Some tokyo) 1704207600000000000].

Definition mixed_frame : DataFrame :=
  {| index := RangeIndex 2; columns := {[ "when" := Object mixed_zones ]} |}.

(** A [to_datetime] that converts an object column of timestamps to UTC and
    rejects anything else. *)
Definition parse_timestamps (c : Column) : result Column :=
  match c with
  | Object l =>
      match mapM (fun v => match v with
                           | VTimestamp _ u => Some (Some u)
                           | _ => None
                           end) l with
      | Some us => Ok (Datetime64 (Some utc) us)
      | None => Raise (mk_exn ValueError "Unknown datetime string format")
      end
  | _ => Raise (mk_exn TypeError "not convertible to datetime")
  end.

Definition info_dict : gmap string PyVal :=
  {[ "symbol" := VStr "AAPL"; "beta" := VFloat (Fin (5 # 4));
     "fullTimeEmployees" := VInt 150000 ]}.

Definition session (date : Z) (close : Q) : HistRow :=
  {| Date := date; Open := Fin close; High := Fin close; Low := Fin close;
     Close := Fin close; Volume := Fin 1000 |}.

(** One session, 2026-01-02. *)
Definition short_hist : list HistRow := [session 1767312000000000000 10].

(** Fifty sessions closing at 10. *)
Definition flat_hist : list HistRow :=
  (fun i => session (1767312000000000000 + Z.of_nat i * ns_per_day) 10)
    <$> seq 0 50.

(** Two sessions of June 2020. *)
Definition stale_hist : list HistRow :=
  [ session 1590969600000000000 11; session 1591056000000000000 12 ].

(** A session of 2025-12-31 and one of 2027-01-04: none in 2026. *)
Definition gap_hist : list HistRow :=
  [ session 1767139200000000000 8; session 1799020800000000000 12 ].

Definition same_path (path : string) : string := path.

Definition world (lines : list string) : World :=
  {| stdin := lines; stdout := []; CONFIG := default_CONFIG "/home/user/Analysis";
     calls := 0 |}.

Definition empty_frame : DataFrame :=
  {| index := DatetimeIndex (Some utc) []; columns := ∅ |}.

(** A provider that has no data for BAD and data for any other ticker. *)
Definition provider (ticker period output_dir : string) (n : nat) : Fetch :=
  if String.eqb ticker "BAD"
  then {| makedirs := Ok tt; history := Ok empty_frame; export := Ok [] |}
  else {| makedirs := Ok tt; history := Ok tokyo_frame; export := Ok ["info"] |}.

Definition batch_args : Args :=
  {| tickers := ["BAD"; "AAPL"]; period := "2y"; output := "/tmp/out" |}.

Definition interactive_args : Args :=
  {| tickers := []; period := "2y"; output := "" |}.

End Examples.

(* ===================================================================== *)
(** * Further notions                                                     *)
(* ===================================================================== *)

Module Notions.
Import Py Pandas StockAnalyzer.

(** The number of values of a column. *)
Definition column_len (c : Column) : nat :=
  match c with
  | Float64 l => length l
  | Int64 l => length l
  | Bool l => length l
  | Datetime64 _ l => length l
  | Object l => length l
  end.

(** The wall-clock readings of a datetime column, value by value. *)
Definition column_wall_clock (c : Column) : list (option Z) :=
  match c with
  | Datetime64 tz l => fmap (M := list) (fmap (M := option) (wall tz)) l
  | _ => []
  end.

(** No time zone is attached to the index or to a column of the frame. *)
Definition tz_free_frame (df : DataFrame) : Prop :=
  index_tz (index df) = None /\
  forall k c, columns df !! k = Some c -> has_tz c = false.

Definition tz_free_series (s : Series) : Prop :=
  index_tz (s_index s) = None /\ has_tz (s_values s) = false.

Definition tz_free (t : table) : Prop :=
  match t with
  | Frame df => tz_free_frame df
  | Ser s => tz_free_series s
  end.

(** The dtype string [s] is the name of the dtype of the column [c]. *)
Definition names_dtype (s : dtype_str) (c : Column) : bool :=
  match s, c with
  | datetime64_ns, Datetime64 None _ => true
  | datetime64_ns_tz name, Datetime64 (Some z) _ => String.eqb name (tzname z)
  | object_, Object _ => true
  | _, _ => false
  end.

(** The dtype of the column, when it is a datetime dtype, is one that the
    [include] list of [remove_timezone] names: [datetime64[ns]],
    [datetime64[ns, UTC]] or [datetime64[ns, US/Eastern]]. Whether
    [select_dtypes] also selects a column of another zone from that list
    has changed between versions of pandas; what is stated about the
    columns that [remove_timezone] selects is stated for the dtypes the
    list names. *)
Definition dtype_listed (c : Column) : bool :=
  negb (is_datetime64_any_dtype c) ||
  existsb (fun s => names_dtype s c) datetime_dtypes.

(** [select_dtypes] read by names: a column is selected when its dtype is
    one that [include] names. *)
Definition select_named (include : list dtype_str) (df : DataFrame)
  : list string :=
  (filter (fun kc => existsb (fun s => names_dtype s kc.2) include = true)
          (map_to_list (columns df))).*1.

(** Every datetime column of the frame has a dtype that the list names. *)
Definition dtypes_listed (df : DataFrame) : Prop :=
  map_Forall (fun _ c => dtype_listed c = true) (columns df).

End Notions.

Module Samples.
Import Py Pandas StockAnalyzer Spec Examples Notions.

(** A series of two dividends paid in Tokyo. *)
Definition dividends : Series :=
  {| s_index := DatetimeIndex (Some tokyo)
                  [Some 1704294000000000000; Some 1704380400000000000];
     s_name := Some "Dividends";
     s_values := Float64 [Fin (1 # 4); Fin (1 # 4)] |}.

(** US Eastern time with the daylight-saving dates of 2024: four hours
    behind UTC from 10 March, 07:00 UTC, to 3 November, 06:00 UTC, and five
    hours behind otherwise. *)
Definition eastern : tzinfo :=
  {| tzname := "US/Eastern";
     utcoffset := fun u =>
       if (1710054000000000000 <=? u) && (u <? 1730613600000000000)
       then -4 * 3600 * 1000000000 else -5 * 3600 * 1000000000 |}.

(** A frame with a column of timestamps in US Eastern time (2024-01-03,
    10:00, and a missing one) and a date index in UTC. *)
Definition events_frame : DataFrame :=
  {| index := DatetimeIndex (Some utc)
                [Some 1704240000000000000; Some 1704326400000000000];
     columns := {[ "at" := Datetime64 (Some eastern)
                             [Some 1704294000000000000; None];
                   "eps" := Float64 [Fin 2; NaN] ]} |}.

End Samples.

Module RunNotions.
Import Py Pandas StockAnalyzer Spec.

(** What one attempt on a ticker comes to, read off the answers of the
    outside world: the directory is made, the history is fetched and must
    have rows, the rest of the sequence runs. *)
Definition attempt_outcome (f : Fetch) : result (list string) :=
  rbind (makedirs f) (fun _ =>
  rbind (history f) (fun hist_data =>
  if frame_empty hist_data then Raise no_data else export f)).

(** What an attempt logs after its first line: success, or the error when
    it is an [Exception]. *)
Definition attempt_log (ticker : string) (r : result (list string))
  : list event :=
  match r with
  | Ok _ => [Saved ticker]
  | Raise e =>
      if issubclass (exn_class e) Exception then [ErrorAnalyzing ticker e]
      else []
  end.

(** The world after one attempt on [ticker] whose outcome is [r]. *)
Definition attempted (w : World) (ticker : string) (r : result (list string))
  : World :=
  {| stdin := stdin w;
     stdout := stdout w ++ Downloading ticker :: attempt_log ticker r;
     CONFIG := CONFIG w; calls := S (calls w) |}.

(** The console of a batch in which every ticker succeeds at once; [i] is
    the number of the first ticker. *)
Fixpoint success_log (n i : nat) (todo : list string) : list event :=
  match todo with
  | [] => []
  | t :: rest =>
      [Analyzing i n t; Downloading t; Saved t] ++ success_log n (S i) rest
  end.

Definition is_Backoff (e : event) : bool :=
  match e with Backoff => true | _ => false end.

(** The number of waits between attempts in a console. *)
Definition backoffs (l : list event) : nat := length (filter (fun e => is_Backoff e = true) l).

Definition is_ErrorProcessing (e : event) : bool :=
  match e with ErrorProcessing _ _ => true | _ => false end.

(** The attempts tenacity allows for a configured retry count. *)
Definition max_attempts (c : Config) : nat := S (Z.to_nat (retries c - 1)).

End RunNotions.

Module RunSamples.
Import Py Pandas StockAnalyzer Spec Examples RunNotions.

Definition connection_error : exn := mk_exn ConnectionError "Connection reset".
Definition interrupt : exn := mk_exn KeyboardInterrupt "".

(** A provider whose first two answers fail and whose later answers have
    data. *)
Definition flaky_provider (ticker period output_dir : string) (n : nat)
  : Fetch :=
  if (n <? 2)%nat
  then {| makedirs := Ok tt; history := Raise connection_error; export := Ok [] |}
  else {| makedirs := Ok tt; history := Ok tokyo_frame; export := Ok ["info"] |}.

(** A provider interrupted from the keyboard during the first fetch. *)
Definition interrupted_provider (ticker period output_dir : string) (n : nat)
  : Fetch :=
  {| makedirs := Ok tt; history := Raise interrupt; export := Ok [] |}.

(** A provider that has data for every ticker. *)
Definition healthy_provider (ticker period output_dir : string) (n : nat)
  : Fetch :=
  {| makedirs := Ok tt; history := Ok tokyo_frame; export := Ok ["info"] |}.

Definition two_tickers : Args :=
  {| tickers := ["AAPL"; "MSFT"]; period := "1y"; output := "/tmp/out" |}.

End RunSamples.

Module ConsoleNotions.
Import Py Pandas StockAnalyzer.

Definition is_lower (c : ascii) : bool :=
  let n := code c in ((97 <=? n) && (n <=? 122))%N.

(** A ticker symbol as the batch receives it from the prompt: not empty,
    without whitespace, without a lowercase letter. *)
Definition symbol_ok (t : string) : Prop :=
  t <> "" /\
  Forall (fun c => isspace c = false /\ is_lower c = false)
         (String.list_ascii_of_string t).

End ConsoleNotions.

Module StatsSamples.
Import Py Pandas StockAnalyzer Spec Examples.

(** The last session of 2025 and the first two of 2026. *)
Definition turn_of_year : list HistRow :=
  [ session 1767139200000000000 8;
    session 1767312000000000000 10;
    session 1767571200000000000 12 ].

End StatsSamples.

(* ===================================================================== *)
(** * The script, continued: datasets and spreadsheets                    *)
(* ===================================================================== *)

Module Datasets.
Import Py Pandas StockAnalyzer.

(** [str.capitalize]: the first character in upper case, the others in
    lower case. *)
Definition capitalize (s : string) : string :=
  match s with
  | EmptyString => EmptyString
  | String c r => String (upper_char c) (lower r)
  end.

(** [series.to_frame(name=n)]: the series as the one column [n] of a frame
    with its index. *)
Definition to_frame (s : Series) (name : string) : DataFrame :=
  {| index := s_index s; columns := {[ name := s_values s ]} |}.

(** The provider's ticker object, seen through its attributes: what reading
    each attribute comes to. A name that is not bound is no attribute. *)
Definition getattr (stock : gmap string (result PyObj)) (name : string)
  : result PyObj :=
  match stock !! name with
  | Some r => r
  | None => Raise (mk_exn AttributeError name)
  end.

(** [hasattr(stock, name)] reads the attribute: it is [False] when that
    raises [AttributeError] and lets any other exception through. *)
Definition hasattr (stock : gmap string (result PyObj)) (name : string)
  : result bool :=
  match getattr stock name with
  | Ok _ => Ok true
  | Raise e =>
      if issubclass (exn_class e) AttributeError then Ok false else Raise e
  end.

(** [excel_data.index = excel_data.index.date] when the index is a
    [DatetimeIndex]: an index of [datetime.date] objects. *)
Definition index_date (i : Index) : Index :=
  match i with
  | DatetimeIndex tz l =>
      ObjectIndex ((fun o => match o with
                             | Some u => VDate (date_of (wall tz u))
                             | None => VNaT
                             end) <$> l)
  | _ => i
  end.

(** [excel_data.select_dtypes(include=['datetime64']).columns]: the string
    'datetime64' stands for the scalar type [np.datetime64], the type of the
    datetime columns without time zone. *)
Definition datetime64_cols (df : DataFrame) : list string :=
  (filter (fun kc => scalar_type_eqb (dtype_type kc.2) np_datetime64 = true)
          (map_to_list (columns df))).*1.

(** [excel_data[col] = excel_data[col].dt.date] *)
Definition date_column (df : DataFrame) (col : string) : result DataFrame :=
  let* c := getitem df col in
  let* n := dt_date c in
  Ok (setitem df col n).

(** The copy of a dataset that goes to the spreadsheet writer. *)
Definition excel_data (data : DataFrame) : result DataFrame :=
  let excel := {| index := index_date (index data); columns := columns data |} in
  for_each date_column excel (datetime64_cols excel).

(** What the loop over the data types logs. *)
Inductive dataset_event :=
  | Exported (data_type : string)              (* the check mark and file *)
  | Warned (data_type : string) (e : exn).     (* "Error processing ..." *)

Section Loop.
Variable parse : Column -> result Column.
(** [excel_data.to_excel(filepath, engine='openpyxl')] for the file of a
    data type. *)
Variable to_excel : string -> DataFrame -> result unit.
Variable cfg : Config.
Variable stock : gmap string (result PyObj).

(** ['excel' in CONFIG['export_formats']] *)
Definition excel_enabled : bool :=
  existsb (String.eqb "excel") (export_formats cfg).

(** The statements under [try] for one data type, from the dict
    [data_types] and the log so far: the state they reach, and the
    exception they stop at if any. In the branch of a value that is neither
    [None] nor a frame, the first operation a frame alone supports raises. *)
Definition try_dataset (st : gmap string table * list dataset_event)
    (data_type : string)
  : result unit * (gmap string table * list dataset_event) :=
  match getattr stock data_type with
  | Raise e => (Raise e, st)
  | Ok data =>
      let data := match data with
                  | OSeries s => OFrame (to_frame s (capitalize data_type))
                  | _ => data
                  end in
      match handle_data data (Some data_type) with
      | ONone => (Ok tt, st)
      | OFrame f =>
          match remove_timezone parse (Some (Frame f)) with
          | Ok (Some (Frame d)) =>
              let st := (<[data_type := Frame d]> st.1, st.2) in
              if excel_enabled then
                match excel_data d with
                | Ok x =>
                    match to_excel data_type x with
                    | Ok _ => (Ok tt, (st.1, (st.2 ++ [Exported data_type])%list))
                    | Raise e => (Raise e, st)
                    end
                | Raise e => (Raise e, st)
                end
              else (Ok tt, st)
          | Ok _ => (Raise (mk_exn AttributeError "select_dtypes"), st)
          | Raise e => (Raise e, st)
          end
      | OSeries s =>
          match remove_timezone parse (Some (Ser s)) with
          | Ok (Some t) =>
              let st := (<[data_type := t]> st.1, st.2) in
              if excel_enabled
              then (Raise (mk_exn AttributeError "select_dtypes"), st)
              else (Ok tt, st)
          | Ok None => (Raise (mk_exn AttributeError "index"), st)
          | Raise e => (Raise e, st)
          end
      | ODict _ | OOther _ => (Raise (mk_exn AttributeError "copy"), st)
      end
  end.

(** One turn of the loop over [CONFIG['data_types']]. *)
Definition process_data_type (st : gmap string table * list dataset_event)
    (data_type : string)
  : result (gmap string table * list dataset_event) :=
  let* has := hasattr stock data_type in
  if negb has then Ok st
  else
    match try_dataset st data_type with
    | (Ok _, st') => Ok st'
    | (Raise e, st') =>
        if caught_by [ValueError; TypeError; KeyError] e
        then Ok (st'.1, (st'.2 ++ [Warned data_type e])%list)
        else Raise e
    end.

(** The loop: the dict [data_types] it fills and what it logs. *)
Definition process_data_types
  : result (gmap string table * list dataset_event) :=
  for_each process_data_type (∅, []) (data_types cfg).
End Loop.

End Datasets.

Module DatasetNotions.
Import Py Pandas StockAnalyzer Spec Notions Datasets.

(** A frame without its time zones. *)
Definition normalized (f : DataFrame) : DataFrame :=
  {| index := strip_index (index f); columns := strip_column <$> columns f |}.

(** The frame that a readable attribute of the ticker object gives under
    a data type, before its time zones are removed: a series becomes a
    frame and the value is normalised; nothing for a value that does not
    normalise to a frame. *)
Definition dataset_frame (stock : gmap string (result PyObj))
    (data_type : string) : option DataFrame :=
  match stock !! data_type with
  | Some (Ok data) =>
      match handle_data
              match data with
              | OSeries s => OFrame (to_frame s (capitalize data_type))
              | _ => data
              end (Some data_type) with
      | OFrame f => Some f
      | _ => None
      end
  | _ => None
  end.

(** The dataset itself: that frame without its time zones. *)
Definition dataset_of (stock : gmap string (result PyObj)) (data_type : string)
  : option table :=
  (fun f => Frame (normalized f)) <$> dataset_frame stock data_type.

(** The datetime columns of every requested dataset have a dtype that the
    list of [remove_timezone] names. *)
Definition datasets_listed (cfg : Config) (stock : gmap string (result PyObj))
  : Prop :=
  Forall (fun data_type =>
            from_option dtypes_listed True (dataset_frame stock data_type))
         (data_types cfg).

(** A column as the spreadsheet gets it: dates for a datetime column
    without time zone, the column itself otherwise. *)
Definition excel_column (c : Column) : Column :=
  match c with
  | Datetime64 None l =>
      Object ((fun o => match o with
                        | Some u => VDate (date_of u)
                        | None => VNaT
                        end) <$> l)
  | _ => c
  end.

(** The dict after the turn of one data type. *)
Definition store (stock : gmap string (result PyObj))
    (m : gmap string table) (data_type : string)
  : gmap string table :=
  match dataset_of stock data_type with
  | Some t => <[data_type := t]> m
  | None => m
  end.

(** Reading the attribute raises nothing but [AttributeError]. *)
Definition readable (stock : gmap string (result PyObj))
    (data_type : string) : Prop :=
  forall e, stock !! data_type = Some (Raise e) ->
            issubclass (exn_class e) AttributeError = true.

End DatasetNotions.

Module DatasetSamples.
Import Py Pandas StockAnalyzer Spec Examples Samples Datasets.

(** A ticker object with dividends, company information, a statement that
    cannot be read, and no other attribute. *)
Definition sample_stock : gmap string (result PyObj) :=
  {[ "dividends" := Ok (OSeries dividends);
     "info" := Ok (ODict info_dict);
     "financials" := Raise (mk_exn AttributeError "financials") ]}.

Definition broken_stock : gmap string (result PyObj) :=
  {[ "dividends" := Ok (OSeries dividends);
     "info" := Raise (mk_exn KeyError "quoteSummary") ]}.

(** A writer that accepts every frame but company information. *)
Definition picky_writer (data_type : string) (x : DataFrame) : result unit :=
  if String.eqb data_type "info"
  then Raise (mk_exn ValueError "Cannot convert to Excel")
  else Ok tt.

Definition sample_cfg : Config :=
  {| output_directory := "/home/user/Analysis"; default_period := "2y";
     generate_plots := true; generate_summary := true; retries := 3;
     data_types := ["historical"; "financials"; "dividends"; "info"];
     export_formats := ["excel"] |}.

(** What the loop returns for the sample ticker object. *)
Definition sample_result : gmap string table * list dataset_event :=
  Eval vm_compute in
    match process_data_types parse_timestamps picky_writer sample_cfg
            sample_stock with
    | Ok r => r
    | Raise _ => (∅, [])
    end.

End DatasetSamples.

(* ===================================================================== *)
(** * Properties                                                          *)
(* ===================================================================== *)

Import Py Pandas StockAnalyzer Spec Examples.
Local Open Scope list_scope.

(** ** Reductions: maximum, minimum, last rows *)

Section Reductions.






Lemma length_finite_values (l : list cell) :
  (length (finite_values l) <= length l)%nat.
Proof.
  unfold finite_values, omap.
  induction l as [|[|q] l IH]; simpl; lia.
Qed.

Lemma finite_values_Fin (qs : list Q) : finite_values (Fin <$> qs) = qs.
Proof.
  unfold finite_values, omap.
  induction qs as [|q qs IH]; [done|]. simpl. by f_equal.
Qed.





Lemma length_tail {A} (n : nat) (l : list A) :
  length (tail n l) = Nat.min n (length l).
Proof. unfold tail. rewrite length_drop. lia. Qed.


End Reductions.

(** ** Rolling means *)

Section Rolling.

(** The last rolling mean is the mean of the window that ends the series. *)
Lemma rolling_mean_last (w : nat) (l : list cell) :
  l <> [] -> last (rolling_mean w l) = Some (window_mean w (tail w l)).
Proof.
  intros Hl. unfold rolling_mean. rewrite fmap_last.
  destruct (length l) as [|m] eqn:E.
  - by destruct l.
  - rewrite seq_S, last_snoc. simpl. by rewrite take_ge by lia.
Qed.

Lemma window_mean_short (w : nat) (win : list cell) :
  (length win < w)%nat -> window_mean w win = NaN.
Proof.
  intros H. unfold window_mean.
  pose proof (length_finite_values win).
  destruct (Nat.ltb_spec (length (finite_values win)) w); [done | lia].
Qed.

Lemma window_mean_full (w : nat) (qs : list Q) :
  length qs = w -> window_mean w (Fin <$> qs) = Fin (mean qs).
Proof.
  intros H. unfold window_mean. rewrite finite_values_Fin.
  destruct (Nat.ltb_spec (length qs) w); [lia | done].
Qed.

Lemma moving_average_spec (w : nat) (hist_data : list HistRow) :
  hist_data <> [] ->
  (exists c, moving_average w hist_data = Ok c) /\
  ((length hist_data < w)%nat -> moving_average w hist_data = Ok NaN) /\
  (forall qs, (w <= length hist_data)%nat ->
     tail w (Close <$> hist_data) = Fin <$> qs ->
     moving_average w hist_data = Ok (Fin (mean qs))).
Proof.
  intros Hne. unfold moving_average, iloc_last.
  rewrite rolling_mean_last by (by destruct hist_data).
  split; [eauto|]. split.
  - intros Hlt. rewrite window_mean_short; [done|].
    rewrite length_tail, length_fmap. lia.
  - intros qs Hle Hqs. rewrite Hqs, window_mean_full; [done|].
    rewrite <- (length_fmap Fin), <- Hqs, length_tail, length_fmap. lia.
Qed.

(** The two averages of the summary are these moving averages. *)
Lemma analysis_moving_averages (now_year : Z) (hist_data : list HistRow)
    (a : Analysis) :
  analyze_stock_data now_year hist_data = Ok a ->
  moving_average 50 hist_data = Ok (MA_50 a) /\
  moving_average 200 hist_data = Ok (MA_200 a).
Proof.
  unfold analyze_stock_data. intros H.
  destruct (iloc_last (Close <$> hist_data)); [|done]. simpl in H.
  destruct (ytd_start_price now_year hist_data); [|done]. simpl in H.
  destruct (moving_average 50 hist_data); [|done]. simpl in H.
  destruct (moving_average 200 hist_data); [|done]. simpl in H.
  by injection H as <-.
Qed.

End Rolling.

(** ** The year-to-date lookup *)

Section YearToDate.

Lemma year_start_next (y : Z) : year_start y <= year_start (y + 1) - 1.
Proof.
  unfold year_start, days_before_year, ns_per_day.
  replace (y + 1 - 1) with (y - 1 + 1) by lia.
  set (p := y - 1).
  assert (H4 : p / 4 <= (p + 1) / 4) by (apply Z.div_le_mono; lia).
  assert (H400 : p / 400 <= (p + 1) / 400) by (apply Z.div_le_mono; lia).
  assert (H100 : (p + 1) / 100 <= p / 100 + 1).
  { transitivity ((p + 1 * 100) / 100); [apply Z.div_le_mono; lia|].
    rewrite Z.div_add by lia. lia. }
  lia.
Qed.

Lemma last_elem_of {A} (l : list A) (x : A) : last l = Some x -> x ∈ l.
Proof.
  intros (l' & ->)%last_Some. apply elem_of_app. right. by left.
Qed.

(** On a sorted index, a year before the first row or after the last row is
    a [KeyError]. *)
Lemma loc_year_out_of_range {A} (year : Z) (idx : list Z) (values : list A) :
  idx <> [] ->
  is_monotonic_increasing idx = true ->
  Forall (fun t => t < year_start year) idx \/
  Forall (fun t => year_start (year + 1) <= t) idx ->
  loc_year year idx values = Raise (mk_exn KeyError "year").
Proof.
  intros Hne Hsorted Hrange. unfold loc_year. rewrite Hsorted.
  destruct idx as [|first rest]; [done|].
  destruct (last (first :: rest)) as [final|] eqn:Hlast;
    [| by apply last_None in Hlast].
  apply last_elem_of in Hlast.
  pose proof (year_start_next year) as Hnext.
  assert (Hfirst : first ∈ first :: rest) by (by left).
  match goal with
  | |- (if ?b then _ else _) = _ => assert (Hb : b = true)
  end.
  { destruct Hrange as [Hbefore|Hafter].
    - rewrite Forall_forall in Hbefore. specialize (Hbefore final Hlast).
      apply orb_true_iff. right.
      apply andb_true_iff. split; apply Z.ltb_lt; lia.
    - rewrite Forall_forall in Hafter. specialize (Hafter first Hfirst).
      apply orb_true_iff. left.
      apply andb_true_iff. split; apply Z.ltb_lt; lia. }
  by rewrite Hb.
Qed.

Lemma monotonic_tail (a : Z) (l : list Z) :
  is_monotonic_increasing (a :: l) = true -> is_monotonic_increasing l = true.
Proof.
  destruct l as [|b l]; [done|]. simpl. by intros [_ H]%andb_true_iff.
Qed.

Lemma monotonic_head_le (l : list Z) : forall a x,
  is_monotonic_increasing (a :: l) = true -> x ∈ l -> a <= x.
Proof.
  induction l as [|b l IH]; intros a x Hs Hx; [inversion Hx|].
  simpl in Hs. apply andb_true_iff in Hs as [Hab Hs]. apply Z.leb_le in Hab.
  apply elem_of_cons in Hx as [->|Hx]; [done|].
  specialize (IH b x Hs Hx). lia.
Qed.

Lemma monotonic_le_last (l : list Z) : forall a final x,
  is_monotonic_increasing (a :: l) = true ->
  last (a :: l) = Some final -> x ∈ a :: l -> x <= final.
Proof.
  induction l as [|b l IH]; intros a final x Hs Hlast Hx.
  - injection Hlast as <-. apply list_elem_of_singleton in Hx. lia.
  - apply elem_of_cons in Hx as [->|Hx].
    + assert (Hb : b <= final).
      { apply (IH b final b); [by eapply monotonic_tail | done | by left]. }
      simpl in Hs. apply andb_true_iff in Hs as [Hab _].
      apply Z.leb_le in Hab. lia.
    + apply (IH b final x); [by eapply monotonic_tail | done | done].
Qed.

(** When no entry of the index lies between the bounds, the two insertion
    points coincide and the mask selects nothing. *)
Lemma searchsorted_no_row (t1 t2 : Z) (idx : list Z) :
  t1 <= t2 ->
  Forall (fun t => ~ (t1 <= t <= t2)) idx ->
  searchsorted_right t2 idx = searchsorted_left t1 idx.
Proof.
  intros Hle. induction 1 as [|v l Hv _ IH]; simpl; [done|].
  destruct (Z.leb_spec v t2), (Z.ltb_spec v t1); lia.
Qed.

Lemma filter_no_row {A} (t1 t2 : Z) (idx : list Z) : forall values : list A,
  Forall (fun t => ~ (t1 <= t <= t2)) idx ->
  filter (fun tv : Z * A => t1 <= tv.1 <= t2) (zip idx values) = [].
Proof.
  intros values H. revert values.
  induction H as [|v l Hv _ IH]; intros [|x values]; try done.
  simpl zip. rewrite filter_cons_False; [apply IH | done].
Qed.

(** Without a row in the year, the lookup raises [KeyError] or returns no
    row. *)
Lemma loc_year_no_row {A} (year : Z) (idx : list Z) (values : list A) :
  Forall (fun t => ~ (year_start year <= t < year_start (year + 1))) idx ->
  loc_year year idx values = Raise (mk_exn KeyError "year") \/
  loc_year year idx values = Ok [].
Proof.
  intros Hno. pose proof (year_start_next year) as Hnext.
  assert (Hno' : Forall (fun t => ~ (year_start year <= t
                                     <= year_start (year + 1) - 1)) idx).
  { eapply Forall_impl; [exact Hno|]. simpl. intros t Ht. lia. }
  unfold loc_year. cbv zeta.
  destruct (is_monotonic_increasing idx).
  - match goal with
    | |- context [if ?b then Raise _ else _] => destruct b; [by left|]
    end.
    right. rewrite (searchsorted_no_row _ _ idx Hnext Hno').
    by rewrite Nat.sub_diag.
  - right. by rewrite filter_no_row.
Qed.

(** The lookup raises [KeyError] exactly on a sorted index that lies wholly
    before or wholly after the year. *)
Lemma loc_year_KeyError {A} (year : Z) (idx : list Z) (values : list A) :
  loc_year year idx values = Raise (mk_exn KeyError "year") ->
  idx <> [] /\ is_monotonic_increasing idx = true /\
  (Forall (fun t => t < year_start year) idx \/
   Forall (fun t => year_start (year + 1) <= t) idx).
Proof.
  pose proof (year_start_next year) as Hnext.
  unfold loc_year. cbv zeta.
  destruct (is_monotonic_increasing idx) eqn:Hsorted; [|done].
  destruct idx as [|first rest]; [done|].
  destruct (last (first :: rest)) as [final|] eqn:Hlast;
    [| by apply last_None in Hlast].
  match goal with
  | |- (if ?b then _ else _) = _ -> _ => destruct b eqn:Hb; [|done]
  end.
  intros _. split; [done|]. split; [done|].
  apply orb_true_iff in Hb as [Hb|Hb]; apply andb_true_iff in Hb as [H1 H2];
    apply Z.ltb_lt in H1, H2.
  - right. apply Forall_forall. intros x Hx.
    apply elem_of_cons in Hx as [->|Hx]; [lia|].
    pose proof (monotonic_head_le rest first x Hsorted Hx). lia.
  - left. apply Forall_forall. intros x Hx.
    pose proof (monotonic_le_last rest first final x Hsorted Hlast Hx). lia.
Qed.

End YearToDate.

(** ** Statistics engine *)

Example rolling_mean_of_two :
  rolling_mean 2 [Fin 1; Fin 3; NaN; Fin 5; Fin 7]
  = [NaN; Fin (mean [1; 3]); NaN; NaN; Fin (mean [5; 7])]%Q.
Proof. reflexivity. Qed.

Example tail_of_three :
  tail 2 [1; 2; 3] = [2; 3] /\ tail 5 [1; 2; 3] = [1; 2; 3].
Proof. split; reflexivity. Qed.

Example year_2020_of_three_sessions :
  loc_year 2020
    [1577836800000000000; 1590969600000000000; 1609459200000000000]
    [Fin 1; Fin 2; Fin 3]
  = Ok [Fin 1; Fin 2].
Proof. reflexivity. Qed.

(** C2, counterexample: the sample series has two sessions, both of June
    2020, and so no row in the year 2026; with 2026 as the current year the
    year-to-date lookup raises [KeyError], and [analyze_stock_data] raises
    with it instead of returning a summary in which the value is marked
    unavailable. *)
Lemma ytd_stale_series_raises :
  stale_hist <> [] /\
  Forall (fun r => ~ (year_start 2026 <= Date r < year_start 2027)) stale_hist /\
  ytd_start_price 2026 stale_hist = Raise (mk_exn KeyError "year") /\
  analyze_stock_data 2026 stale_hist = Raise (mk_exn KeyError "year") /\
  ~ (exists a, analyze_stock_data 2026 stale_hist = Ok a).
Proof.
  split; [discriminate|]. split.
  - repeat constructor; vm_compute; intros [H1 H2]; by apply H1.
  - split; [reflexivity|]. split; [reflexivity|].
    intros [a H]. vm_compute in H. discriminate.
Qed.

(** C2, as amended: for every historical series that has no row in the
    current calendar year, [analyze_stock_data] raises and returns no
    summary, so that no value is reported as unavailable. On a series with
    rows the error is that of the year-to-date lookup. It is a [KeyError]
    exactly when the series has rows, is in chronological order and lies
    wholly before or wholly after the year; in every other case (rows on
    both sides of the year, rows out of order, no row at all) it is an
    [IndexError]. *)
Theorem ytd_without_row_in_year_raises (now_year : Z)
    (hist_data : list HistRow) :
  Forall (fun r => ~ (year_start now_year <= Date r
                      < year_start (now_year + 1))) hist_data ->
  exists e,
    analyze_stock_data now_year hist_data = Raise e /\
    (hist_data <> [] -> ytd_start_price now_year hist_data = Raise e) /\
    (exn_class e = KeyError \/ exn_class e = IndexError) /\
    (exn_class e = KeyError <->
       hist_data <> [] /\
       is_monotonic_increasing (Date <$> hist_data) = true /\
       (Forall (fun r => Date r < year_start now_year) hist_data \/
        Forall (fun r => year_start (now_year + 1) <= Date r) hist_data)).
Proof.
  intros Hno.
  destruct hist_data as [|r0 rest] eqn:Hhist.
  { eexists. split; [reflexivity|]. split; [done|]. split; [by right|].
    split; [done | by intros [? _]]. }
  rewrite <- Hhist in *.
  assert (Hne : hist_data <> []) by (by rewrite Hhist).
  assert (Hlatest : exists c, iloc_last (Close <$> hist_data) = Ok c).
  { unfold iloc_last. destruct (last (Close <$> hist_data)) eqn:Hlast; [eauto|].
    apply last_None, fmap_nil_inv in Hlast. done. }
  destruct Hlatest as [c Hlatest].
  assert (Hidx : Forall (fun t => ~ (year_start now_year <= t
                                     < year_start (now_year + 1)))
                        (Date <$> hist_data)) by (by apply Forall_fmap).
  destruct (loc_year_no_row now_year (Date <$> hist_data)
              (Close <$> hist_data) Hidx) as [Hloc|Hloc].
  - exists (mk_exn KeyError "year").
    assert (Hytd : ytd_start_price now_year hist_data
                   = Raise (mk_exn KeyError "year")).
    { unfold ytd_start_price. by rewrite Hloc. }
    split. { unfold analyze_stock_data. rewrite Hlatest. simpl. by rewrite Hytd. }
    split; [done|]. split; [by left|]. split; [|done].
    intros _. apply loc_year_KeyError in Hloc as (_ & Hsorted & Hout).
    split; [done|]. split; [done|].
    destruct Hout as [H|H]; [left | right]; rewrite Forall_fmap in H; exact H.
  - exists (mk_exn IndexError "single positional indexer is out-of-bounds").
    assert (Hytd : ytd_start_price now_year hist_data
                   = Raise (mk_exn IndexError
                              "single positional indexer is out-of-bounds")).
    { unfold ytd_start_price. by rewrite Hloc. }
    split. { unfold analyze_stock_data. rewrite Hlatest. simpl. by rewrite Hytd. }
    split; [done|]. split; [by right|]. split; [done|].
    intros (_ & Hsorted & Hout).
    rewrite (loc_year_out_of_range now_year (Date <$> hist_data)
               (Close <$> hist_data)) in Hloc; [done | | done |].
    + intros Hnil. by apply fmap_nil_inv in Hnil.
    + destruct Hout as [H|H]; [left | right]; rewrite Forall_fmap; exact H.
Qed.

(** A session at the end of 2025 and one at the start of 2027, read in
    2026: the lookup finds no row between them. *)
Lemma ytd_without_row_in_year_raises_witness :
  exists e,
    analyze_stock_data 2026 gap_hist = Raise e /\
    (exn_class e = KeyError \/ exn_class e = IndexError).
Proof.
  assert (Hno : Forall (fun r => ~ (year_start 2026 <= Date r
                                    < year_start (2026 + 1))) gap_hist).
  { repeat constructor; vm_compute; intros [H1 H2];
      first [by apply H1 | discriminate H2]. }
  destruct (ytd_without_row_in_year_raises 2026 gap_hist Hno)
    as (e & Ha & _ & Hclass & _).
  exists e. split; [exact Ha | exact Hclass].
Defined.

(** C3, counterexample: a series of one session, closing at 10. It has fewer
    rows than the 50-day window; the 50-day and the 200-day moving averages
    are NaN, not the mean of the rows that are available (10). *)
Lemma moving_average_short_series_is_nan :
  short_hist <> [] /\
  (length short_hist < 50)%nat /\
  moving_average 50 short_hist = Ok NaN /\
  moving_average 200 short_hist = Ok NaN /\
  moving_average 50 short_hist
    <> Ok (Fin (mean (finite_values (Close <$> short_hist)))).
Proof.
  split; [discriminate|]. split; [simpl; lia|].
  split; [reflexivity|]. split; [reflexivity|]. discriminate.
Qed.

(** C3, as amended: for every non-empty historical series the 50-day and the
    200-day moving averages are computed without error, and they are the
    two averages of the summary. When the series has at least as many rows
    as the window and the closes of the last 50 (200) rows are all present,
    the value is their arithmetic mean. When the series has fewer rows than
    the window the value is NaN, not a mean of the rows available. *)
Theorem moving_averages (hist_data : list HistRow) :
  hist_data <> [] ->
  (exists c50 c200, moving_average 50 hist_data = Ok c50 /\
                    moving_average 200 hist_data = Ok c200) /\
  (forall now_year a, analyze_stock_data now_year hist_data = Ok a ->
     moving_average 50 hist_data = Ok (MA_50 a) /\
     moving_average 200 hist_data = Ok (MA_200 a)) /\
  (forall qs, (50 <= length hist_data)%nat ->
     tail 50 (Close <$> hist_data) = Fin <$> qs ->
     moving_average 50 hist_data = Ok (Fin (mean qs))) /\
  (forall qs, (200 <= length hist_data)%nat ->
     tail 200 (Close <$> hist_data) = Fin <$> qs ->
     moving_average 200 hist_data = Ok (Fin (mean qs))) /\
  ((length hist_data < 50)%nat -> moving_average 50 hist_data = Ok NaN) /\
  ((length hist_data < 200)%nat -> moving_average 200 hist_data = Ok NaN).
Proof.
  intros Hne.
  destruct (moving_average_spec 50 hist_data Hne) as ([c50 H50] & Hs50 & Hf50).
  destruct (moving_average_spec 200 hist_data Hne) as ([c200 H200] & Hs200 & Hf200).
  split; [by exists c50, c200|].
  split; [intros y a; apply analysis_moving_averages|].
  done.
Qed.

(** Fifty sessions closing at 10: the 50-day average is their mean, the
    200-day average is NaN. *)
Lemma moving_averages_witness :
  moving_average 50 flat_hist = Ok (Fin (mean (replicate 50 (10 : Q)))) /\
  moving_average 200 flat_hist = Ok NaN.
Proof.
  assert (Hne : flat_hist <> []) by discriminate.
  split.
  - apply (moving_averages flat_hist Hne); [simpl; lia | reflexivity].
  - apply (moving_averages flat_hist Hne). simpl. lia.
Defined.


(** ** Normalizer *)

Section Frames.
Variable parse : Column -> result Column.

Lemma tz_localize_none_naive (l : list (option Z)) :
  tz_localize_none None l = l.
Proof.
  unfold tz_localize_none. induction l as [|[u|] l IH]; simpl; by f_equal.
Qed.

Lemma strip_column_idemp (c : Column) :
  strip_column (strip_column c) = strip_column c.
Proof. destruct c; simpl; try done. by rewrite tz_localize_none_naive. Qed.

Lemma strip_index_idemp (i : Index) : strip_index (strip_index i) = strip_index i.
Proof. by destruct i as [| [tz|] l |]. Qed.

Lemma elem_of_select_dtypes (include : list dtype_str) (df : DataFrame)
    (k : string) :
  k ∈ select_dtypes include df <->
  exists c, columns df !! k = Some c /\ dtype_selected include c = true.
Proof.
  unfold select_dtypes. rewrite list_elem_of_fmap. split.
  - intros ([k' c] & -> & [Hsel Hin]%list_elem_of_filter).
    apply elem_of_map_to_list in Hin. by exists c.
  - intros (c & Hk & Hsel). exists (k, c). split; [done|].
    apply list_elem_of_filter. split; [done|]. by apply elem_of_map_to_list.
Qed.

(** The three dtype strings of the first loop select the datetime columns,
    with or without a zone, and nothing else. *)
Lemma datetime_selected (c : Column) :
  dtype_selected datetime_dtypes c = is_datetime64_any_dtype c.
Proof. by destruct c as [| | | [tz|] l |]. Qed.

(** A column selected for its dtype [object] never passes the dtype test
    that guards the coercion. *)
Lemma object_selected (c : Column) :
  dtype_selected [object_] c = true -> is_datetime64_any_dtype c = false.
Proof. by destruct c as [| | | [tz|] l |]. Qed.

Lemma localize_column_datetime (df : DataFrame) (col : string) (c : Column) :
  columns df !! col = Some c -> is_datetime64_any_dtype c = true ->
  localize_column parse df col = Ok (setitem df col (strip_column c)).
Proof.
  intros Hc Hdt. unfold localize_column, getitem. rewrite Hc. simpl.
  by destruct c.
Qed.

(** The first loop, over labels that all name datetime columns. *)
Lemma localize_loop (cols : list string) : forall df,
  (forall k, k ∈ cols ->
     exists c, columns df !! k = Some c /\ is_datetime64_any_dtype c = true) ->
  exists out, for_each (localize_column parse) df cols = Ok out /\
    index out = index df /\
    forall k, columns out !! k =
      if bool_decide (k ∈ cols) then strip_column <$> columns df !! k
      else columns df !! k.
Proof.
  induction cols as [|a cols IH]; intros df Hall.
  - exists df. split; [done|]. split; [done|]. intros k.
    case_bool_decide as H; [inversion H | done].
  - destruct (Hall a) as (c & Hc & Hdt); [by left|].
    simpl. rewrite (localize_column_datetime _ _ _ Hc Hdt). simpl.
    destruct (IH (setitem df a (strip_column c))) as (out & Hout & Hidx & Hcols).
    { intros k Hk. simpl. destruct (decide (a = k)) as [->|Hne].
      - rewrite lookup_insert_eq. eexists; split; [done|]. by destruct c.
      - rewrite lookup_insert_ne by done. apply Hall. by right. }
    exists out. split; [done|]. split; [done|]. intros k. rewrite Hcols. simpl.
    destruct (decide (a = k)) as [->|Hne].
    + rewrite lookup_insert_eq, Hc. simpl.
      rewrite (bool_decide_eq_true_2 (k ∈ k :: cols)) by (by left).
      case_bool_decide; simpl; [by rewrite strip_column_idemp | done].
    + rewrite lookup_insert_ne by done.
      case_bool_decide as H1; case_bool_decide as H2; try done.
      * exfalso. apply H2. by right.
      * apply elem_of_cons in H2 as [->|?]; done.
Qed.

(** The second loop, over labels none of which names a datetime column:
    whatever [parse] would do, it is not called and the frame is unchanged. *)
Lemma coerce_loop (cols : list string) (df : DataFrame) :
  (forall k, k ∈ cols ->
     exists c, columns df !! k = Some c /\ is_datetime64_any_dtype c = false) ->
  for_each (coerce_object_column parse) df cols = Ok df.
Proof.
  induction cols as [|a cols IH]; intros Hall; [done|].
  destruct (Hall a) as (c & Hc & Hdt); [by left|].
  simpl. unfold coerce_object_column at 1, getitem.
  rewrite Hc. simpl. rewrite Hdt. simpl.
  apply IH. intros k Hk. apply Hall. by right.
Qed.

Lemma remove_timezone_frame_closed_form (df : DataFrame) :
  remove_timezone_frame parse df =
  Ok {| index := strip_index (index df);
        columns := strip_column <$> columns df |}.
Proof.
  unfold remove_timezone_frame.
  set (df0 := {| index := strip_index (index df); columns := columns df |}).
  destruct (localize_loop (select_dtypes datetime_dtypes df0) df0)
    as (out & -> & Hidx & Hcols).
  { intros k (c & Hk & Hsel)%elem_of_select_dtypes. exists c.
    by rewrite <- datetime_selected. }
  simpl.
  assert (Hout : out = {| index := strip_index (index df);
                          columns := strip_column <$> columns df |}).
  { destruct out as [i m]. simpl in *. f_equal; [done|].
    apply map_eq. intros k. rewrite Hcols, lookup_fmap.
    destruct (columns df !! k) as [c|] eqn:Hk; simpl.
    - case_bool_decide as Hin; [done|]. f_equal.
      destruct (is_datetime64_any_dtype c) eqn:Hdt; [|by destruct c].
      exfalso. apply Hin. apply elem_of_select_dtypes. exists c.
      by rewrite datetime_selected.
    - by case_bool_decide. }
  rewrite Hout. apply coerce_loop.
  intros k (c & Hk & Hsel)%elem_of_select_dtypes. exists c.
  split; [done|]. by apply object_selected.
Qed.

Lemma remove_timezone_series_closed_form (s : Series) :
  remove_timezone_series s =
  Ok {| s_index := strip_index (s_index s); s_name := s_name s;
        s_values := strip_column (s_values s) |}.
Proof.
  unfold remove_timezone_series. simpl.
  destruct (s_values s) as [| | | [tz|] l |]; simpl; try done.
  by rewrite tz_localize_none_naive.
Qed.

Lemma row_DataFrame_from_row (d : gmap string PyVal) :
  row (DataFrame_from_row d) 0 = d.
Proof.
  unfold row, DataFrame_from_row. simpl. apply map_eq. intros k.
  rewrite lookup_omap, lookup_fmap.
  destruct (d !! k) as [v|]; [|done]. by destruct v.
Qed.

End Frames.

(** C5, counterexample: the dict without keys is an empty container, yet
    under the tag "info" [handle_data] does not return [None] for it: a dict
    has no attribute [empty], so the guard lets it through and it is wrapped
    like any other dict, into a frame of one row and no column. *)
Lemma handle_data_empty_dict_info :
  empty_container (ODict ∅) = true /\
  handle_data (ODict ∅) (Some "info")
  = OFrame {| index := RangeIndex 1; columns := ∅ |} /\
  ~ (forall data data_type,
       empty_container data = true -> handle_data data data_type = ONone).
Proof.
  split; [done|]. split.
  { unfold handle_data, DataFrame_from_row. simpl. by rewrite fmap_empty. }
  intros H. specialize (H (ODict ∅) (Some "info") eq_refl). discriminate H.
Qed.

(** C5, as amended: [handle_data] returns [None] for [None] and for every
    input whose attribute [empty] is true, which an empty frame or series
    has and a dict has not; for every dict tagged "info", the dict without
    keys included, it returns a frame of one row that has the keys of the
    dict as columns and whose row is the dict; it returns a non-empty frame
    or series as it is; and it returns [None] for every other input: a dict
    under another tag, or any other object. *)
Theorem handle_data_cases :
  (forall data_type, handle_data ONone data_type = ONone) /\
  (forall data data_type,
     has_true_empty data = true -> handle_data data data_type = ONone) /\
  (forall d, exists df,
     handle_data (ODict d) (Some "info") = OFrame df /\
     index df = RangeIndex 1 /\ dom (columns df) = dom d /\ row df 0 = d) /\
  (forall df data_type,
     frame_empty df = false -> handle_data (OFrame df) data_type = OFrame df) /\
  (forall s data_type,
     series_empty s = false -> handle_data (OSeries s) data_type = OSeries s) /\
  (forall d data_type,
     data_type <> Some "info" -> handle_data (ODict d) data_type = ONone) /\
  (forall a data_type, handle_data (OOther a) data_type = ONone).
Proof.
  split; [done|]. split.
  { intros data data_type H. unfold handle_data. rewrite H.
    by rewrite orb_true_r. }
  split.
  { intros d. exists (DataFrame_from_row d). split; [done|]. split; [done|].
    split; [apply dom_fmap_L | apply row_DataFrame_from_row]. }
  repeat split.
  - intros df data_type H. unfold handle_data. simpl. rewrite H.
    by destruct data_type.
  - intros s data_type H. unfold handle_data. simpl. rewrite H.
    by destruct data_type.
  - intros d [dt|] H; [|done]. unfold handle_data. simpl.
    destruct (String.eqb_spec dt "info") as [->|]; done.
  - intros [[|]|] [dt|]; done.
Qed.

(** An empty frame, a frame with rows, and a dict under two tags. *)
Lemma handle_data_cases_witness :
  handle_data (OFrame empty_frame) (Some "financials") = ONone /\
  handle_data (OFrame tokyo_frame) (Some "financials") = OFrame tokyo_frame /\
  handle_data (ODict info_dict) (Some "dividends") = ONone /\
  exists df, handle_data (ODict info_dict) (Some "info") = OFrame df /\
             row df 0 = info_dict.
Proof.
  destruct handle_data_cases as (_ & Hempty & Hinfo & Hframe & _ & Hdict & _).
  split; [by apply Hempty|].
  split; [by apply Hframe|].
  split; [by apply Hdict|].
  destruct (Hinfo info_dict) as (df & H & _ & _ & Hrow). by exists df.
Defined.

(** C8: for every frame whose index is a [DatetimeIndex] with a time zone,
    [remove_timezone] returns a frame whose index is still a
    [DatetimeIndex], has no time zone, and shows for every entry the same
    wall-clock reading, hence the same calendar date, as the input. *)
Theorem remove_timezone_index (parse : Column -> result Column)
    (df : DataFrame) :
  is_DatetimeIndex (index df) = true ->
  index_tz (index df) <> None ->
  exists out,
    remove_timezone parse (Some (Frame df)) = Ok (Some (Frame out)) /\
    is_DatetimeIndex (index out) = true /\
    index_tz (index out) = None /\
    wall_clock (index out) = wall_clock (index df) /\
    dates (index out) = dates (index df).
Proof.
  intros Hdt Htz. simpl. rewrite remove_timezone_frame_closed_form. simpl.
  eexists. split; [reflexivity|]. simpl.
  destruct (index df) as [| [tz|] l |]; try done. simpl.
  assert (H : wall_clock (DatetimeIndex None (tz_localize_none (Some tz) l))
              = wall_clock (DatetimeIndex (Some tz) l)).
  { simpl. apply (tz_localize_none_naive (tz_localize_none (Some tz) l)). }
  repeat split; [done|]. unfold dates. by rewrite H.
Qed.

(** Two midnights in Tokyo keep their dates, 2024-01-04 and 2024-01-05. *)
Lemma remove_timezone_index_witness :
  exists out,
    remove_timezone parse_timestamps (Some (Frame tokyo_frame))
      = Ok (Some (Frame out)) /\
    index_tz (index out) = None /\
    dates (index out) = [Some 19726; Some 19727].
Proof.
  destruct (remove_timezone_index parse_timestamps tokyo_frame)
    as (out & H & _ & Htz & _ & Hdates); [reflexivity | discriminate |].
  exists out. split; [done|]. split; [done|]. by rewrite Hdates.
Defined.

(** C9: every column of dtype [object] comes out of [remove_timezone] with
    the values it went in with, whatever [pd.to_datetime] would make of
    them: the coercion to calendar dates is never attempted, because its
    guard tests the dtype, which is [object] for the columns of that loop. *)
Theorem object_columns_untouched (parse : Column -> result Column)
    (df : DataFrame) (col : string) (vals : list PyVal) :
  columns df !! col = Some (Object vals) ->
  exists out,
    remove_timezone_frame parse df = Ok out /\
    columns out !! col = Some (Object vals).
Proof.
  intros H. rewrite remove_timezone_frame_closed_form. eexists. split; [done|].
  simpl. by rewrite lookup_fmap, H.
Qed.

(** A column of timestamps of two zones: [to_datetime] and [.dt.date] would
    turn it into dates, and the column comes out as it went in. *)
Lemma object_columns_untouched_witness :
  (exists dated, rbind (parse_timestamps (Object mixed_zones)) dt_date
                 = Ok (Object dated)) /\
  exists out,
    remove_timezone_frame parse_timestamps mixed_frame = Ok out /\
    columns out !! "when" = Some (Object mixed_zones).
Proof.
  split; [eexists; reflexivity|].
  apply (object_columns_untouched parse_timestamps mixed_frame "when").
  reflexivity.
Defined.

(** C10: [remove_timezone] returns a result on every input, [None], frame
    or series, and applied to its own result it returns that result again. *)
Theorem remove_timezone_idempotent (parse : Column -> result Column)
    (x : option table) :
  exists y, remove_timezone parse x = Ok y /\ remove_timezone parse y = Ok y.
Proof.
  destruct x as [[df|s]|]; simpl.
  - rewrite remove_timezone_frame_closed_form. simpl. eexists; split; [done|].
    simpl. rewrite remove_timezone_frame_closed_form. simpl.
    rewrite strip_index_idemp. do 3 f_equal.
    rewrite <- map_fmap_compose. f_equal.
    apply map_fmap_ext. intros k c _. apply strip_column_idemp.
  - rewrite remove_timezone_series_closed_form. simpl. eexists; split; [done|].
    simpl. rewrite remove_timezone_series_closed_form. simpl.
    by rewrite strip_index_idemp, strip_column_idemp.
  - by exists None.
Qed.

(** ** Console: prompts and the sentinel *)

Example sentinel_is_trimmed_and_lowercased :
  lower (strip "  eXiT ") = "exit" /\ lower (strip "exit now") <> "exit".
Proof. split; [reflexivity | discriminate]. Qed.

Example int_of_text :
  int " +1_0 " = Some 10 /\ int "-3" = Some (-3) /\ int "007" = Some 7 /\
  int "" = None /\ int "1__0" = None /\ int "1.0" = None.
Proof. repeat split; reflexivity. Qed.

Example split_keeps_empty_pieces :
  split_on "," "1,,2" = ["1"; ""; "2"] /\ split_on "," "" = [""].
Proof. split; reflexivity. Qed.

Section Console.

Lemma push_push (w : World) (e1 e2 : list event) (r1 r2 : list string) :
  push (push w e1 r1) e2 r2 = push w (e1 ++ e2) r2.
Proof. unfold push. simpl. by rewrite <- app_assoc. Qed.

Lemma stdout_push (w : World) (evs : list event) (rest : list string) :
  stdout (push w evs rest) = stdout w ++ evs.
Proof. done. Qed.

Lemma emit_spec (e : event) (w : World) :
  emit e w = (Ok tt, push w [e] (stdin w)).
Proof. done. Qed.

Lemma safe_input_exit (p : prompt) (w : World) (line : string)
    (rest : list string) :
  stdin w = line :: rest -> lower (strip line) = "exit" ->
  safe_input p w = (Raise exit0, push w [Input p; Goodbye] rest).
Proof.
  intros Hin Hs. unfold safe_input, bind, input. rewrite Hin, Hs. simpl.
  unfold push. simpl. by rewrite <- app_assoc.
Qed.

Lemma safe_input_line (p : prompt) (w : World) (line : string)
    (rest : list string) :
  stdin w = line :: rest -> lower (strip line) <> "exit" ->
  safe_input p w = (Ok line, push w [Input p] rest).
Proof.
  intros Hin Hs%String.eqb_neq. unfold safe_input, bind, input.
  by rewrite Hin, Hs.
Qed.

Lemma mapM_fmap_after {A B C} (f : A -> option B) (g : B -> C) (l : list A) :
  mapM (fun x => g <$> f x) l = fmap g <$> mapM f l.
Proof.
  induction l as [|x l IH]; [done|]. simpl. rewrite IH.
  destruct (f x); [|done]. simpl. by destruct (mapM f l).
Qed.

(** The indices of the source are the numbers of the answer, less one. *)
Lemma parse_indices_numbers (answer : string) :
  parse_indices answer =
  match numbers answer with
  | Some ns => Ok ((fun n => n - 1) <$> ns)
  | None => Raise (mk_exn ValueError "invalid literal for int() with base 10")
  end.
Proof.
  unfold parse_indices, numbers. rewrite mapM_fmap_after.
  by destruct (mapM _ _).
Qed.

Lemma keys_all_types : keys = all_types.
Proof. reflexivity. Qed.

Lemma pick_chosen (ns : list Z) : pick ((fun n => n - 1) <$> ns) = chosen ns.
Proof.
  unfold pick, chosen. rewrite keys_all_types.
  apply list_omap_ext, Forall2_fmap_l, Forall_Forall2_diag, Forall_forall.
  intros n _. unfold compose.
  change (Z.of_nat (length all_types)) with 10.
  destruct (Z.leb_spec 0 (n - 1)), (Z.leb_spec 1 n); try lia;
    destruct (Z.ltb_spec (n - 1) 10), (Z.leb_spec n 10); try lia; done.
Qed.

Lemma select_data_types_exit (w : World) (line : string) (rest : list string) :
  stdin w = line :: rest -> lower (strip line) = "exit" ->
  select_data_types w
  = (Raise exit0, push w [Menu; Input AskDataTypes; Goodbye] rest).
Proof.
  intros Hin Hs. unfold select_data_types, bind at 1. rewrite emit_spec.
  unfold bind. rewrite (safe_input_exit _ _ line rest) by done.
  by rewrite push_push.
Qed.

Lemma select_data_types_line (w : World) (line : string) (rest : list string) :
  stdin w = line :: rest -> lower (strip line) <> "exit" ->
  select_data_types w =
  (Ok (selection (strip line)).1,
   push w [Menu; Input AskDataTypes; (selection (strip line)).2] rest).
Proof.
  intros Hin Hs. unfold select_data_types, bind at 1. rewrite emit_spec.
  unfold bind at 1. rewrite (safe_input_line _ _ line rest) by done.
  rewrite push_push. unfold selection.
  destruct (String.eqb (strip line) "" || String.eqb (strip line) "0").
  - unfold bind. by rewrite emit_spec, push_push.
  - unfold try_except, bind, lift. rewrite parse_indices_numbers.
    destruct (numbers (strip line)) as [ns|].
    + rewrite pick_chosen. destruct (chosen ns) as [|t ts]; simpl;
        unfold push; simpl; by rewrite <- app_assoc.
    + simpl. unfold push; simpl. by rewrite <- app_assoc.
Qed.

End Console.

Section Process.
Variable parse : Column -> result Column.
Variable abspath : string -> string.
Variable provider : string -> string -> string -> nat -> Fetch.

Lemma ask_tickers_exit (args : Args) (w : World) (s : string)
    (rest : list string) :
  tickers args = [] -> stdin w = s :: rest -> lower (strip s) = "exit" ->
  ask_tickers_and_period args w
  = (Raise exit0, push w [Input AskTickers; Goodbye] rest).
Proof.
  intros Ht Hin Hs. unfold ask_tickers_and_period. rewrite Ht.
  unfold bind at 1. by rewrite (safe_input_exit _ _ s rest).
Qed.

Lemma ask_period_exit (args : Args) (w : World) (a s : string)
    (rest : list string) :
  tickers args = [] -> stdin w = a :: s :: rest ->
  lower (strip a) <> "exit" -> lower (strip s) = "exit" ->
  ask_tickers_and_period args w =
  (Raise exit0, push w [Input AskTickers; Input AskPeriod; Goodbye] rest).
Proof.
  intros Ht Hin Ha Hs. unfold ask_tickers_and_period. rewrite Ht.
  unfold bind at 1. rewrite (safe_input_line _ _ a (s :: rest)) by done.
  unfold bind at 1. rewrite (safe_input_exit _ _ s rest) by done.
  by rewrite push_push.
Qed.

Lemma ask_tickers_and_period_lines (args : Args) (w : World) (a b : string)
    (rest : list string) :
  tickers args = [] -> stdin w = a :: b :: rest ->
  lower (strip a) <> "exit" -> lower (strip b) <> "exit" ->
  exists args',
    ask_tickers_and_period args w =
      (Ok args', push w [Input AskTickers; Input AskPeriod] rest) /\
    output args' = output args.
Proof.
  intros Ht Hin Ha Hb. unfold ask_tickers_and_period. rewrite Ht.
  unfold bind at 1. rewrite (safe_input_line _ _ a (b :: rest)) by done.
  unfold bind at 1. rewrite (safe_input_line _ _ b rest) by done.
  rewrite push_push. eexists. split; [reflexivity | done].
Qed.

Lemma ask_tickers_given (args : Args) (w : World) :
  tickers args <> [] -> ask_tickers_and_period args w = (Ok args, w).
Proof. intros Ht. unfold ask_tickers_and_period. by destruct (tickers args). Qed.

Lemma ask_output_dir_exit (args : Args) (w : World) (s : string)
    (rest : list string) :
  asks_output_dir abspath args (CONFIG w) = true ->
  stdin w = s :: rest -> lower (strip s) = "exit" ->
  ask_output_dir abspath args w
  = (Raise exit0, push w [Input AskOutputDir; Goodbye] rest).
Proof.
  intros Hask Hin Hs. unfold ask_output_dir, bind at 1, get_CONFIG.
  rewrite Hask. unfold bind at 1. by rewrite (safe_input_exit _ _ s rest).
Qed.

(** [main] up to the update of [CONFIG['data_types']], for an answer that is
    not the sentinel. *)
Lemma main_selected (args : Args) (w : World) (line : string)
    (rest : list string) :
  stdin w = line :: rest -> lower (strip line) <> "exit" ->
  main parse abspath provider args w
  = after_selection parse abspath provider args (selected_world w line rest).
Proof.
  intros Hin Hs. unfold main. unfold bind at 1. rewrite emit_spec.
  unfold bind at 1. rewrite (select_data_types_line _ line rest) by done.
  rewrite push_push. unfold bind at 1, get_CONFIG. unfold bind at 1, set_CONFIG.
  reflexivity.
Qed.

Lemma run_exit (args : Args) (w w' : World) :
  main parse abspath provider args w = (Raise exit0, w') ->
  run parse abspath provider args w = (stdout w', Exit 0).
Proof. intros H. unfold run. by rewrite H. Qed.

End Process.

(** C6: a line that is "exit" once trimmed and lowercased ends the process
    at once with exit code 0 at each of the four prompts: at the data-type
    menu; at the ticker prompt and at the period prompt, shown when no
    ticker was given on the command line; and at the output-directory
    prompt, shown when no directory other than the default was given,
    whether the tickers were typed or given. In each case [Goodbye] follows
    the prompt and nothing comes after it. *)
Theorem exit_sentinel_at_every_prompt
    (parse : Column -> result Column) (abspath : string -> string)
    (provider : string -> string -> string -> nat -> Fetch)
    (args : Args) (w : World) (s : string) :
  lower (strip s) = "exit" ->
  (forall rest, stdin w = s :: rest ->
     run parse abspath provider args w =
       (stdout w ++ [Header; Menu; Input AskDataTypes; Goodbye], Exit 0)) /\
  (forall a rest, tickers args = [] -> lower (strip a) <> "exit" ->
     stdin w = a :: s :: rest ->
     exists ev, run parse abspath provider args w =
       (stdout w ++ [Header; Menu; Input AskDataTypes; ev;
                     Input AskTickers; Goodbye], Exit 0)) /\
  (forall a b rest, tickers args = [] ->
     lower (strip a) <> "exit" -> lower (strip b) <> "exit" ->
     stdin w = a :: b :: s :: rest ->
     exists ev, run parse abspath provider args w =
       (stdout w ++ [Header; Menu; Input AskDataTypes; ev;
                     Input AskTickers; Input AskPeriod; Goodbye], Exit 0)) /\
  (forall a b c rest, tickers args = [] ->
     asks_output_dir abspath args (CONFIG w) = true ->
     lower (strip a) <> "exit" -> lower (strip b) <> "exit" ->
     lower (strip c) <> "exit" ->
     stdin w = a :: b :: c :: s :: rest ->
     exists ev, run parse abspath provider args w =
       (stdout w ++ [Header; Menu; Input AskDataTypes; ev; Input AskTickers;
                     Input AskPeriod; Input AskOutputDir; Goodbye], Exit 0)) /\
  (forall a rest, tickers args <> [] ->
     asks_output_dir abspath args (CONFIG w) = true ->
     lower (strip a) <> "exit" ->
     stdin w = a :: s :: rest ->
     exists ev, run parse abspath provider args w =
       (stdout w ++ [Header; Menu; Input AskDataTypes; ev;
                     Input AskOutputDir; Goodbye], Exit 0)).
Proof.
  intros Hs. repeat split.
  - intros rest Hin. erewrite run_exit.
    2:{ unfold main. unfold bind at 1. rewrite emit_spec.
        unfold bind at 1. rewrite (select_data_types_exit _ s rest) by done.
        reflexivity. }
    by rewrite push_push.
  - intros a rest Ht Ha Hin. eexists. erewrite run_exit.
    2:{ rewrite (main_selected _ _ _ _ _ a (s :: rest)) by done.
        unfold after_selection. unfold bind at 1.
        rewrite (ask_tickers_exit _ _ s rest) by done. reflexivity. }
    rewrite stdout_push. simpl. by rewrite <- app_assoc.
  - intros a b rest Ht Ha Hb Hin. eexists. erewrite run_exit.
    2:{ rewrite (main_selected _ _ _ _ _ a (b :: s :: rest)) by done.
        unfold after_selection. unfold bind at 1.
        rewrite (ask_period_exit _ _ b s rest) by done. reflexivity. }
    rewrite stdout_push. simpl. by rewrite <- app_assoc.
  - intros a b c rest Ht Hask Ha Hb Hc Hin. eexists.
    destruct (ask_tickers_and_period_lines args
                (selected_world w a (b :: c :: s :: rest)) b c (s :: rest))
      as (args' & Hargs & Hout); try done.
    erewrite run_exit.
    2:{ rewrite (main_selected _ _ _ _ _ a (b :: c :: s :: rest)) by done.
        unfold after_selection. unfold bind at 1. rewrite Hargs.
        unfold bind at 1.
        rewrite (ask_output_dir_exit _ _ _ s rest); [reflexivity | | done | done].
        unfold asks_output_dir in *. simpl. by rewrite Hout. }
    rewrite !stdout_push. simpl. by rewrite <- !app_assoc.
  - intros a rest Ht Hask Ha Hin. eexists. erewrite run_exit.
    2:{ rewrite (main_selected _ _ _ _ _ a (s :: rest)) by done.
        unfold after_selection. unfold bind at 1.
        rewrite ask_tickers_given by done.
        unfold bind at 1.
        rewrite (ask_output_dir_exit _ _ _ s rest); [reflexivity | | done | done].
        unfold asks_output_dir in *. by simpl. }
    rewrite stdout_push. simpl. by rewrite <- app_assoc.
Qed.

(** The sentinel at the menu, and at the output-directory prompt after
    three other answers. *)
Lemma exit_sentinel_at_every_prompt_witness :
  run parse_timestamps same_path provider batch_args (world [" Exit "])
    = ([Header; Menu; Input AskDataTypes; Goodbye], Exit 0) /\
  exists ev,
    run parse_timestamps same_path provider interactive_args
        (world ["2, 4"; "aapl msft"; "1y"; "EXIT"; "never read"])
    = ([Header; Menu; Input AskDataTypes; ev; Input AskTickers;
        Input AskPeriod; Input AskOutputDir; Goodbye], Exit 0).
Proof.
  split.
  - destruct (exit_sentinel_at_every_prompt parse_timestamps same_path
                provider batch_args (world [" Exit "]) " Exit " eq_refl)
      as (Hfirst & _).
    by apply (Hfirst []).
  - destruct (exit_sentinel_at_every_prompt parse_timestamps same_path
                provider interactive_args
                (world ["2, 4"; "aapl msft"; "1y"; "EXIT"; "never read"])
                "EXIT" eq_refl)
      as (_ & _ & _ & Hfourth & _).
    apply (Hfourth "2, 4" "aapl msft" "1y" ["never read"]);
      try reflexivity; discriminate.
Defined.

(** C7: at the data-type prompt, for a line that is not the sentinel: "0" or
    an empty answer selects all ten data types in the order of the menu,
    with the message for "all"; an answer of which a piece between commas is
    not an integer, or of which no number lies between 1 and 10, selects all
    ten as well, with the warning; any other answer selects, for each of its
    numbers between 1 and 10 in turn, the data type of that number. *)
Theorem select_data_types_menu (w : World) (line : string)
    (rest : list string) :
  stdin w = line :: rest ->
  lower (strip line) <> "exit" ->
  exists sel ev,
    select_data_types w
      = (Ok sel, push w [Menu; Input AskDataTypes; ev] rest) /\
    (strip line = "" \/ strip line = "0" ->
       sel = all_types /\ ev = SelectedAll) /\
    (strip line <> "" -> strip line <> "0" ->
       (numbers (strip line) = None ->
          sel = all_types /\ ev = InvalidSelection) /\
       (forall ns, numbers (strip line) = Some ns ->
          (chosen ns = [] -> sel = all_types /\ ev = InvalidSelection) /\
          (chosen ns <> [] -> sel = chosen ns /\ ev = Selected (chosen ns)))).
Proof.
  intros Hin Hs. eexists _, _. split; [by apply select_data_types_line|].
  unfold selection. split.
  - intros [-> | ->]; done.
  - intros H1%String.eqb_neq H2%String.eqb_neq. rewrite H1, H2. simpl. split.
    + by intros ->.
    + intros ns ->. split.
      * by intros ->.
      * intros Hne. by destruct (chosen ns).
Qed.

(** Three answers: all, two numbers, and a line that is not a list of
    numbers. *)
Lemma select_data_types_menu_witness :
  (exists w', select_data_types (world [" 0 "]) = (Ok all_types, w')) /\
  (exists w', select_data_types (world ["3, 1"])
              = (Ok ["quarterly_financials"; "historical"], w')) /\
  (exists w', select_data_types (world ["1;2"]) = (Ok all_types, w')).
Proof.
  split; [|split].
  - destruct (select_data_types_menu (world [" 0 "]) " 0 " [] eq_refl)
      as (sel & ev & H & Hall & _); [discriminate|].
    destruct Hall as [-> _]; [by right|]. eauto.
  - destruct (select_data_types_menu (world ["3, 1"]) "3, 1" [] eq_refl)
      as (sel & ev & H & _ & Hsel); [discriminate|].
    destruct Hsel as [_ Hns]; [discriminate | discriminate |].
    destruct (Hns [3; 1] eq_refl) as [_ Hchosen].
    destruct Hchosen as [-> _]; [discriminate|]. eauto.
  - destruct (select_data_types_menu (world ["1;2"]) "1;2" [] eq_refl)
      as (sel & ev & H & _ & Hsel); [discriminate|].
    destruct Hsel as [Hnone _]; [discriminate | discriminate |].
    destruct Hnone as [-> _]; [reflexivity|]. eauto.
Defined.

(** ** Orchestrator: retries and the batch loop *)

Section Exhaustion.
Variable parse : Column -> result Column.
Variable provider : string -> string -> string -> nat -> Fetch.
Variables ticker period output_dir : string.

(** Whatever [analyze_stock] raises, it is [RetryError] or an exception
    outside [Exception]: the decorator retries every other exception and
    wraps the last one. *)
Lemma attempts_raise (r : Z) (k : nat) : forall w e w',
  Tenacity.attempts backoff (Tenacity.stop_after_attempt r)
    (analyze_stock_once parse provider ticker period output_dir) k w
  = (Raise e, w') ->
  issubclass (exn_class e) Exception = false \/ e = retry_error.
Proof.
  induction k as [|k IH]; intros w e w'; simpl;
    destruct (analyze_stock_once _ _ _ _ _ w) as [[a|e0] w0]; try done;
    destruct (issubclass (exn_class e0) Exception) eqn:Hsub; simpl.
  - intros [= <- _]. by right.
  - intros [= <- _]. by left.
  - apply IH.
  - intros [= <- _]. by left.
Qed.

(** No exception that [analyze_stock] raises is of a class named by the
    [except] clause of the batch loop. *)
Lemma analyze_stock_never_caught (w : World) (e : exn) (w' : World) :
  analyze_stock parse provider ticker period output_dir w = (Raise e, w') ->
  caught_by [ValueError; TypeError; KeyError; OSError] e = false.
Proof.
  intros H. apply attempts_raise in H as [H | ->]; [|reflexivity].
  unfold caught_by. destruct e as [c msg code]. simpl in *.
  by destruct c.
Qed.

(** The provider never has data for the ticker. *)
Hypothesis no_history : forall n,
  makedirs (provider ticker period output_dir n) = Ok tt /\
  exists df, history (provider ticker period output_dir n) = Ok df /\
             frame_empty df = true.

Lemma analyze_stock_once_no_data (w : World) :
  analyze_stock_once parse provider ticker period output_dir w =
  (Raise no_data,
   {| stdin := stdin w;
      stdout := stdout w ++ [Downloading ticker; ErrorAnalyzing ticker no_data];
      CONFIG := CONFIG w; calls := S (calls w) |}).
Proof.
  destruct (no_history (calls w)) as (Hmk & df & Hh & He).
  unfold analyze_stock_once, try_except, bind, emit, fetch, lift. simpl.
  rewrite Hmk, Hh, He. simpl. by rewrite <- app_assoc.
Qed.

Lemma attempts_exhausted (k : nat) : forall w,
  Tenacity.attempts backoff (Tenacity.stop_after_attempt (retries (CONFIG w)))
    (analyze_stock_once parse provider ticker period output_dir) k w =
  (Raise retry_error,
   {| stdin := stdin w; stdout := stdout w ++ exhausted_log ticker k;
      CONFIG := CONFIG w; calls := (calls w + S k)%nat |}).
Proof.
  induction k as [|k IH]; intros w; simpl.
  - rewrite analyze_stock_once_no_data. simpl. do 3 f_equal. lia.
  - rewrite analyze_stock_once_no_data. simpl.
    specialize (IH (backoff {| stdin := stdin w;
      stdout := stdout w ++ [Downloading ticker; ErrorAnalyzing ticker no_data];
      CONFIG := CONFIG w; calls := S (calls w) |})).
    simpl in IH. rewrite IH. f_equal. f_equal.
    + by rewrite <- !app_assoc.
    + lia.
Qed.

(** A ticker without data ends the loop: [RetryError] leaves it, the
    tickers after it are not analysed. *)
Lemma batch_aborted (n i : nat) (rest : list string) (w : World) :
  exists w',
    batch parse provider n i (ticker :: rest) period output_dir w
      = (Raise retry_error, w') /\
    stdout w' = stdout w ++ Analyzing i n ticker ::
                  exhausted_log ticker (Z.to_nat (retries (CONFIG w) - 1)).
Proof.
  eexists. simpl. unfold bind at 1, try_except. unfold bind at 1.
  rewrite emit_spec. unfold bind at 1, analyze_stock, Tenacity.call. simpl.
  pose proof (attempts_exhausted (Z.to_nat (retries (CONFIG w) - 1))
                (push w [Analyzing i n ticker] (stdin w))) as H.
  simpl in H. rewrite H. simpl. split; [reflexivity|]. simpl.
  by rewrite <- app_assoc.
Qed.

End Exhaustion.

(** C1, on the code: a batch of BAD, for which the provider has no data, and
    AAPL, for which it has. The three attempts on BAD are made and logged;
    then tenacity raises [RetryError], which the [except] clause of the
    batch loop does not name: the process ends with a traceback, AAPL is
    not analysed and the completion banner is not printed. With AAPL alone
    the same run completes. *)
Theorem retry_exhaustion_aborts_batch :
  run parse_timestamps same_path provider batch_args (world ["0"])
  = ([Header; Menu; Input AskDataTypes; SelectedAll; Processing 2;
      Analyzing 1 2 "BAD";
      Downloading "BAD"; ErrorAnalyzing "BAD" no_data; Backoff;
      Downloading "BAD"; ErrorAnalyzing "BAD" no_data; Backoff;
      Downloading "BAD"; ErrorAnalyzing "BAD" no_data],
     Traceback retry_error) /\
  caught_by [ValueError; TypeError; KeyError; OSError] retry_error = false /\
  run parse_timestamps same_path provider
      {| tickers := ["AAPL"]; period := "2y"; output := "/tmp/out" |}
      (world ["0"])
  = ([Header; Menu; Input AskDataTypes; SelectedAll; Processing 1;
      Analyzing 1 1 "AAPL"; Downloading "AAPL"; Saved "AAPL";
      Complete "/home/user/Analysis"],
     Finished).
Proof. split; [|split]; vm_compute; reflexivity. Qed.

(* ===================================================================== *)
(** * Further properties                                                  *)
(* ===================================================================== *)

Import Notions Samples.

(** ** Normalizer *)

Section NormalizerShape.
Variable parse : Column -> result Column.

Lemma strip_column_len (c : Column) : column_len (strip_column c) = column_len c.
Proof.
  destruct c; simpl; try done. unfold tz_localize_none. by rewrite length_fmap.
Qed.

Lemma strip_index_len (i : Index) : index_len (strip_index i) = index_len i.
Proof.
  destruct i as [| [tz|] l |]; simpl; try done.
  unfold tz_localize_none. by rewrite length_fmap.
Qed.

Lemma strip_column_no_tz (c : Column) : has_tz (strip_column c) = false.
Proof. by destruct c as [| | | [tz|] l |]. Qed.

Lemma strip_column_naive (c : Column) : has_tz c = false -> strip_column c = c.
Proof.
  destruct c as [| | | [tz|] l |]; simpl; try done.
  intros _. by rewrite tz_localize_none_naive.
Qed.

Lemma strip_index_no_tz (i : Index) : index_tz (strip_index i) = None.
Proof. by destruct i as [| [tz|] l |]. Qed.

Lemma strip_index_naive (i : Index) : index_tz i = None -> strip_index i = i.
Proof. by destruct i as [| [tz|] l |]. Qed.

End NormalizerShape.

(** X1: [remove_timezone] on a frame raises nothing, whatever
    [pd.to_datetime] does on the columns it is given; the frame it returns
    has the column labels of the input, as many index entries, and as many
    values in each column. *)
Theorem remove_timezone_keeps_shape (parse : Column -> result Column)
    (df : DataFrame) :
  exists out,
    remove_timezone_frame parse df = Ok out /\
    dom (columns out) = dom (columns df) /\
    index_len (index out) = index_len (index df) /\
    forall k c, columns df !! k = Some c ->
      exists c', columns out !! k = Some c' /\ column_len c' = column_len c.
Proof.
  rewrite remove_timezone_frame_closed_form. eexists. split; [done|]. simpl.
  split; [apply dom_fmap_L|]. split; [apply strip_index_len|].
  intros k c Hk. exists (strip_column c). rewrite lookup_fmap, Hk.
  split; [done | apply strip_column_len].
Qed.

Lemma filter_ext_Forall {A} (P1 P2 : A -> Prop) `{!forall x, Decision (P1 x)}
    `{!forall x, Decision (P2 x)} (l : list A) :
  Forall (fun x => P1 x <-> P2 x) l -> filter P1 l = filter P2 l.
Proof.
  induction 1 as [|x l Hx _ IH]; [done|].
  rewrite !filter_cons, IH.
  destruct (decide (P1 x)), (decide (P2 x)); tauto.
Qed.

(** On a frame whose datetime dtypes are all named in the list, selecting
    by the name of the dtype and selecting by its scalar type pick the same
    columns; for [object] they always do. *)
Lemma listed_selection (df : DataFrame) :
  dtypes_listed df ->
  select_named datetime_dtypes df = select_dtypes datetime_dtypes df.
Proof.
  intros Hlisted. unfold select_named, select_dtypes. f_equal.
  apply filter_ext_Forall, Forall_forall.
  intros [k c] Hin%elem_of_map_to_list. specialize (Hlisted k c Hin).
  simpl in *. unfold dtype_listed in Hlisted.
  destruct c as [| | | [z|] l |]; simpl in *; done.
Qed.

Lemma object_selection (df : DataFrame) :
  select_named [object_] df = select_dtypes [object_] df.
Proof.
  unfold select_named, select_dtypes. f_equal.
  apply filter_ext_Forall, Forall_forall.
  intros [k c] _. by destruct c as [| | | [z|] l |].
Qed.

Lemma events_listed : dtypes_listed events_frame.
Proof.
  unfold dtypes_listed, events_frame. simpl.
  apply map_Forall_insert_2; [reflexivity|].
  by apply map_Forall_singleton.
Qed.

(** X2: in a frame whose datetime columns all have a dtype that the list of
    [remove_timezone] names ([datetime64[ns]], [datetime64[ns, UTC]],
    [datetime64[ns, US/Eastern]]), a datetime column, with or without a time
    zone, comes out of [remove_timezone] as a datetime column without time
    zone that shows, value by value, the wall-clock readings it showed
    before; NaT stays NaT. *)
Theorem datetime_columns_localized (parse : Column -> result Column)
    (df : DataFrame) (col : string) (tz : option tzinfo)
    (l : list (option Z)) :
  dtypes_listed df ->
  columns df !! col = Some (Datetime64 tz l) ->
  exists out l',
    remove_timezone_frame parse df = Ok out /\
    columns out !! col = Some (Datetime64 None l') /\
    column_wall_clock (Datetime64 None l') = column_wall_clock (Datetime64 tz l) /\
    forall i, l' !! i = Some None <-> l !! i = Some None.
Proof.
  intros _ H. rewrite remove_timezone_frame_closed_form.
  eexists _, (tz_localize_none tz l). split; [done|]. simpl.
  rewrite lookup_fmap, H. split; [done|]. split.
  - apply (tz_localize_none_naive (tz_localize_none tz l)).
  - intros i. unfold tz_localize_none. rewrite list_lookup_fmap.
    destruct (l !! i) as [[u|]|]; simpl; split; congruence.
Qed.

(** 15:00 UTC on 2024-01-03 is 10:00 in US Eastern time. *)
Lemma datetime_columns_localized_witness :
  exists out,
    remove_timezone_frame parse_timestamps events_frame = Ok out /\
    columns out !! "at" = Some (Datetime64 None [Some 1704276000000000000; None]).
Proof.
  destruct (datetime_columns_localized parse_timestamps events_frame "at"
              (Some eastern) [Some 1704294000000000000; None]
              events_listed eq_refl)
    as (out & l' & H & Hcol & _ & _).
  exists out. split; [done|].
  rewrite remove_timezone_frame_closed_form in H. injection H as <-.
  reflexivity.
Defined.

(** X3: a frame that carries no time zone, neither on its index nor on a
    column, is returned by [remove_timezone] as it is. *)
Theorem naive_frame_unchanged (parse : Column -> result Column)
    (df : DataFrame) :
  tz_free_frame df -> remove_timezone_frame parse df = Ok df.
Proof.
  intros [Hi Hc]. rewrite remove_timezone_frame_closed_form.
  destruct df as [i m]. simpl in *. f_equal. f_equal.
  - by apply strip_index_naive.
  - apply map_eq. intros k. rewrite lookup_fmap.
    destruct (m !! k) as [c|] eqn:Hk; [|done]. simpl. f_equal.
    apply strip_column_naive. by eapply Hc.
Qed.

Lemma naive_frame_unchanged_witness :
  remove_timezone_frame parse_timestamps mixed_frame = Ok mixed_frame.
Proof.
  apply (naive_frame_unchanged parse_timestamps mixed_frame). split; [done|].
  intros k c H. unfold mixed_frame in H. simpl in H.
  apply lookup_singleton_Some in H as [_ <-]. done.
Defined.

(** X4: when the datetime columns of a frame all have a dtype that the
    list of [remove_timezone] names, no dtype of what [remove_timezone]
    returns carries a time zone, neither that of the index nor that of a
    column; on a series, whatever its zone, neither that of the index nor
    that of the values. The values held in a column of dtype [object] are
    not looked at. *)
Theorem remove_timezone_output_tz_free (parse : Column -> result Column)
    (x : option table) (y : table) :
  (forall df, x = Some (Frame df) -> dtypes_listed df) ->
  remove_timezone parse x = Ok (Some y) -> tz_free y.
Proof.
  intros _. destruct x as [[df|s]|]; simpl; [| |done].
  - rewrite remove_timezone_frame_closed_form. simpl. intros [= <-]. split.
    + apply strip_index_no_tz.
    + simpl. intros k c. rewrite lookup_fmap.
      destruct (columns df !! k); [|done]. simpl. intros [= <-].
      apply strip_column_no_tz.
  - rewrite remove_timezone_series_closed_form. simpl. intros [= <-]. split.
    + apply strip_index_no_tz.
    + apply strip_column_no_tz.
Qed.

Lemma remove_timezone_output_tz_free_witness :
  exists y, remove_timezone parse_timestamps (Some (Frame events_frame))
            = Ok (Some y) /\ tz_free y.
Proof.
  eexists. split; [vm_compute; reflexivity|].
  apply (remove_timezone_output_tz_free parse_timestamps
           (Some (Frame events_frame))).
  - intros df [= <-]. exact events_listed.
  - vm_compute. reflexivity.
Defined.

(** X5: on a series, [remove_timezone] raises nothing and keeps the name.
    The index and the values it returns have no time zone, and they show
    the wall-clock readings they showed before; values that are not
    datetimes are unchanged. *)
Theorem remove_timezone_series_keeps (s : Series) :
  exists s',
    remove_timezone_series s = Ok s' /\
    s_name s' = s_name s /\
    index_tz (s_index s') = None /\
    has_tz (s_values s') = false /\
    index_len (s_index s') = index_len (s_index s) /\
    (is_DatetimeIndex (s_index s) = true ->
       is_DatetimeIndex (s_index s') = true /\
       wall_clock (s_index s') = wall_clock (s_index s)) /\
    (is_datetime64_any_dtype (s_values s) = true ->
       is_datetime64_any_dtype (s_values s') = true) /\
    column_wall_clock (s_values s') = column_wall_clock (s_values s) /\
    (is_datetime64_any_dtype (s_values s) = false -> s_values s' = s_values s).
Proof.
  rewrite remove_timezone_series_closed_form. eexists. split; [done|]. simpl.
  split; [done|]. split; [apply strip_index_no_tz|].
  split; [apply strip_column_no_tz|]. split; [apply strip_index_len|].
  split; [|split; [|split]].
  - destruct (s_index s) as [| [tz|] l |]; simpl; try done.
    intros _. split; [done|].
    apply (tz_localize_none_naive (tz_localize_none (Some tz) l)).
  - by destruct (s_values s).
  - destruct (s_values s) as [| | | tz l |]; simpl; try done.
    apply (tz_localize_none_naive (tz_localize_none tz l)).
  - by destruct (s_values s).
Qed.

(** ** Orchestrator *)

Import RunNotions.

Section Attempts.
Variable parse : Column -> result Column.
Variable provider : string -> string -> string -> nat -> Fetch.
Variables ticker period output_dir : string.

(** One attempt comes to the outcome that the answers of the outside world
    determine, logs it, and counts as one call. *)
Lemma analyze_stock_once_outcome (w : World) :
  analyze_stock_once parse provider ticker period output_dir w =
  (attempt_outcome (provider ticker period output_dir (calls w)),
   attempted w ticker
     (attempt_outcome (provider ticker period output_dir (calls w)))).
Proof.
  unfold analyze_stock_once, try_except, bind, emit, fetch, lift,
    attempt_outcome, attempted. simpl.
  destruct (provider ticker period output_dir (calls w)) as [mk hist ex].
  simpl. destruct mk as [[]|e]; simpl.
  - destruct hist as [df|e]; simpl.
    + destruct (frame_empty df) eqn:He; simpl.
      * by rewrite <- app_assoc.
      * rewrite remove_timezone_frame_closed_form. simpl.
        destruct ex as [l|e]; simpl.
        -- by rewrite <- !app_assoc.
        -- unfold caught_by. simpl. rewrite orb_false_r.
           destruct (issubclass (exn_class e) Exception); simpl;
             by rewrite <- ?app_assoc.
    + unfold caught_by. simpl. rewrite orb_false_r.
      destruct (issubclass (exn_class e) Exception); simpl;
        by rewrite <- ?app_assoc.
  - unfold caught_by. simpl. rewrite orb_false_r.
    destruct (issubclass (exn_class e) Exception); simpl;
      by rewrite <- ?app_assoc.
Qed.

Lemma backoffs_app (l1 l2 : list event) :
  backoffs (l1 ++ l2) = (backoffs l1 + backoffs l2)%nat.
Proof. unfold backoffs. by rewrite filter_app, length_app. Qed.

Lemma backoffs_attempt_log (r : result (list string)) :
  backoffs (Downloading ticker :: attempt_log ticker r) = 0%nat.
Proof.
  destruct r as [l|e]; simpl; [done|].
  by destruct (issubclass (exn_class e) Exception).
Qed.

(** After [j] failed attempts and one that succeeds. *)
Lemma attempts_succeed_after (r : Z) (l : list string) (j : nat) :
  forall (k : nat) (w : World),
  (j <= k)%nat ->
  (forall i, (i < j)%nat -> exists e,
     attempt_outcome (provider ticker period output_dir (calls w + i)) = Raise e /\
     issubclass (exn_class e) Exception = true) ->
  attempt_outcome (provider ticker period output_dir (calls w + j)) = Ok l ->
  exists w',
    Tenacity.attempts backoff (Tenacity.stop_after_attempt r)
      (analyze_stock_once parse provider ticker period output_dir) k w
    = (Ok l, w') /\
    calls w' = (calls w + S j)%nat /\
    backoffs (stdout w') = (backoffs (stdout w) + j)%nat /\
    last (stdout w') = Some (Saved ticker) /\
    stdin w' = stdin w /\ CONFIG w' = CONFIG w.
Proof.
  induction j as [|j IH]; intros k w Hk Hfail Hok.
  - replace (calls w + 0)%nat with (calls w) in Hok by lia.
    exists (attempted w ticker (Ok l)).
    assert (Hrun : Tenacity.attempts backoff (Tenacity.stop_after_attempt r)
              (analyze_stock_once parse provider ticker period output_dir) k w
            = (Ok l, attempted w ticker (Ok l))).
    { destruct k; simpl; by rewrite analyze_stock_once_outcome, Hok. }
    split; [done|]. unfold attempted. simpl.
    split; [lia|]. split; [|split; [|done]].
    + rewrite backoffs_app. unfold backoffs. simpl. lia.
    + by rewrite last_app_cons.
  - destruct k as [|k]; [lia|].
    destruct (Hfail 0%nat) as (e & He & Hsub); [lia|].
    replace (calls w + 0)%nat with (calls w) in He by lia.
    simpl. rewrite analyze_stock_once_outcome, He. simpl. rewrite Hsub. simpl.
    destruct (IH k (backoff (attempted w ticker (Raise e))))
      as (w' & Hrun & Hcalls & Hback & Hlast & Hin & Hcfg).
    + lia.
    + intros i Hi. simpl. destruct (Hfail (S i)) as (e' & He' & Hsub'); [lia|].
      exists e'. split; [|done].
      by replace (S (calls w + i)) with (calls w + S i)%nat by lia.
    + simpl. by replace (S (calls w + j)) with (calls w + S j)%nat by lia.
    + exists w'. split; [exact Hrun|]. simpl in *.
      split; [lia|]. split; [|done].
      rewrite Hback, !backoffs_app. simpl. rewrite Hsub. simpl.
      unfold backoffs. simpl. lia.
Qed.

(** Every run of the decorated function makes at least one call and at most
    one more than the attempts left. *)
Lemma attempts_calls (r : Z) (k : nat) : forall w,
  (calls w < calls (Tenacity.attempts backoff (Tenacity.stop_after_attempt r)
      (analyze_stock_once parse provider ticker period output_dir) k w).2
   <= calls w + S k)%nat.
Proof.
  induction k as [|k IH]; intros w; simpl;
    rewrite analyze_stock_once_outcome;
    destruct (attempt_outcome _) as [l|e]; simpl; try lia;
    destruct (issubclass (exn_class e) Exception); simpl; try lia.
  specialize (IH (backoff (attempted w ticker (Raise e)))). simpl in IH. lia.
Qed.

End Attempts.

Import RunSamples.

Section Batch.
Variable parse : Column -> result Column.
Variable provider : string -> string -> string -> nat -> Fetch.

Lemma not_exception_not_caught (e : exn) :
  issubclass (exn_class e) Exception = false ->
  caught_by [ValueError; TypeError; KeyError; OSError] e = false.
Proof. destruct e as [c msg code]. unfold caught_by. simpl. by destruct c. Qed.

(** One turn of the batch loop: the ticker is announced and analysed; a
    result leads on to the next ticker, an exception leaves the loop. *)
Lemma batch_step (n i : nat) (t : string) (rest : list string)
    (period output_dir : string) (w : World) :
  batch parse provider n i (t :: rest) period output_dir w =
  match analyze_stock parse provider t period output_dir
          (push w [Analyzing i n t] (stdin w)) with
  | (Ok _, w') => batch parse provider n (S i) rest period output_dir w'
  | (Raise e, w') => (Raise e, w')
  end.
Proof.
  simpl. unfold bind at 1, try_except. unfold bind at 1. rewrite emit_spec.
  unfold bind at 1.
  destruct (analyze_stock parse provider t period output_dir
              (push w [Analyzing i n t] (stdin w))) as [[l|e] w'] eqn:Hrun.
  - reflexivity.
  - by rewrite (analyze_stock_never_caught _ _ _ _ _ _ _ _ Hrun).
Qed.

Lemma filter_reports_attempts (t period output_dir : string) (r : Z)
    (k : nat) : forall w,
  filter (fun e => is_ErrorProcessing e = true)
    (stdout (Tenacity.attempts backoff (Tenacity.stop_after_attempt r)
       (analyze_stock_once parse provider t period output_dir) k w).2)
  = filter (fun e => is_ErrorProcessing e = true) (stdout w).
Proof.
  assert (Hone : forall w res,
    filter (fun e => is_ErrorProcessing e = true)
      (stdout (attempted w t res))
    = filter (fun e => is_ErrorProcessing e = true) (stdout w)).
  { intros w res. unfold attempted. simpl. rewrite filter_app.
    destruct res as [l|e]; simpl.
    - by rewrite app_nil_r.
    - destruct (issubclass (exn_class e) Exception); simpl; by rewrite app_nil_r. }
  induction k as [|k IH]; intros w; simpl;
    rewrite analyze_stock_once_outcome;
    destruct (attempt_outcome _) as [l|e] eqn:Hout; simpl;
    try (by rewrite <- (Hone w (Ok l)));
    destruct (issubclass (exn_class e) Exception) eqn:Hsub; simpl;
    try (by rewrite <- (Hone w (Raise e))).
  rewrite IH. simpl. rewrite filter_app. simpl. rewrite app_nil_r.
  by rewrite <- (Hone w (Raise e)).
Qed.

End Batch.

(** X6: when the first [j] attempts on a ticker fail with exceptions that
    are [Exception]s, attempt [j+1] succeeds, and the configured retry count
    allows that many attempts, [analyze_stock] returns the result of the
    successful attempt after exactly [j+1] calls on the provider and [j]
    waits; the last thing logged is the success. *)
Theorem analyze_stock_succeeds_after_failures
    (parse : Column -> result Column)
    (provider : string -> string -> string -> nat -> Fetch)
    (ticker period output_dir : string) (w : World)
    (l : list string) (j : nat) :
  (j < max_attempts (CONFIG w))%nat ->
  (forall i, (i < j)%nat -> exists e,
     attempt_outcome (provider ticker period output_dir (calls w + i)%nat) = Raise e /\
     issubclass (exn_class e) Exception = true) ->
  attempt_outcome (provider ticker period output_dir (calls w + j)%nat) = Ok l ->
  exists w',
    analyze_stock parse provider ticker period output_dir w = (Ok l, w') /\
    calls w' = (calls w + S j)%nat /\
    backoffs (stdout w') = (backoffs (stdout w) + j)%nat /\
    last (stdout w') = Some (Saved ticker).
Proof.
  intros Hj Hfail Hok. unfold analyze_stock, Tenacity.call. simpl.
  destruct (attempts_succeed_after parse provider ticker period output_dir
              (retries (CONFIG w)) l j (Z.to_nat (retries (CONFIG w) - 1)) w)
    as (w' & H & Hc & Hb & Hl & _); try done.
  { unfold max_attempts in Hj. lia. }
  by exists w'.
Qed.

(** A provider that fails twice and then answers, under three attempts. *)
Lemma analyze_stock_succeeds_after_failures_witness :
  exists w',
    analyze_stock parse_timestamps flaky_provider "AAPL" "1y" "/tmp/out"
      (world []) = (Ok ["info"], w') /\
    calls w' = 3%nat /\ backoffs (stdout w') = 2%nat.
Proof.
  destruct (analyze_stock_succeeds_after_failures parse_timestamps
              flaky_provider "AAPL" "1y" "/tmp/out" (world []) ["info"] 2)
    as (w' & H & Hc & Hb & _).
  - vm_compute. lia.
  - intros i Hi. exists connection_error.
    destruct i as [|[|i]]; [done | done | lia].
  - reflexivity.
  - exists w'. split; [exact H|]. split; [exact Hc | exact Hb].
Defined.

(** X7: whatever the provider does, [analyze_stock] calls it at least once
    and at most as many times as the retry count allows (once when the
    count is below one). *)
Theorem analyze_stock_attempt_bound (parse : Column -> result Column)
    (provider : string -> string -> string -> nat -> Fetch)
    (ticker period output_dir : string) (w : World) :
  (calls w
   < calls (analyze_stock parse provider ticker period output_dir w).2
   <= calls w + max_attempts (CONFIG w))%nat.
Proof. unfold analyze_stock, Tenacity.call, max_attempts. apply attempts_calls. Qed.

(** X8: an exception that is not an [Exception] (a keyboard interrupt)
    raised during an attempt is neither logged nor retried, and the batch
    loop does not catch it: it leaves the loop after one call, with only the
    announcement of the ticker and the download line printed. *)
Theorem interrupt_leaves_batch (parse : Column -> result Column)
    (provider : string -> string -> string -> nat -> Fetch)
    (n i : nat) (ticker : string) (rest : list string)
    (period output_dir : string) (w : World) (e : exn) :
  attempt_outcome (provider ticker period output_dir (calls w)) = Raise e ->
  issubclass (exn_class e) Exception = false ->
  exists w',
    batch parse provider n i (ticker :: rest) period output_dir w
      = (Raise e, w') /\
    stdout w' = stdout w ++ [Analyzing i n ticker; Downloading ticker] /\
    calls w' = S (calls w).
Proof.
  intros Hout Hsub. rewrite batch_step.
  unfold analyze_stock, Tenacity.call.
  assert (Hrun : forall k,
    Tenacity.attempts backoff
      (Tenacity.stop_after_attempt (retries (CONFIG (push w [Analyzing i n ticker] (stdin w)))))
      (analyze_stock_once parse provider ticker period output_dir) k
      (push w [Analyzing i n ticker] (stdin w))
    = (Raise e, attempted (push w [Analyzing i n ticker] (stdin w)) ticker (Raise e))).
  { intros k. destruct k; simpl; rewrite analyze_stock_once_outcome; simpl;
      rewrite Hout; simpl; by rewrite Hsub. }
  simpl. rewrite Hrun. eexists. split; [reflexivity|].
  unfold attempted. simpl. rewrite Hsub. simpl.
  split; [by rewrite <- app_assoc | done].
Qed.

Lemma interrupt_leaves_batch_witness :
  exists w',
    batch parse_timestamps interrupted_provider 2 1 ["AAPL"; "MSFT"]
      "1y" "/tmp/out" (world []) = (Raise interrupt, w') /\
    stdout w' = [Analyzing 1 2 "AAPL"; Downloading "AAPL"].
Proof.
  destruct (interrupt_leaves_batch parse_timestamps interrupted_provider
              2 1 "AAPL" ["MSFT"] "1y" "/tmp/out" (world []) interrupt
              eq_refl eq_refl) as (w' & H & Hout & _).
  exists w'. split; [exact H | exact Hout].
Defined.

(** X9: no failure of the work done for a ticker (making the directory,
    fetching the history, exporting), whatever exception it raises at
    whatever attempt, makes the batch loop print its "Error processing"
    line: whatever the tickers and the provider, a run of the loop adds no
    such line to the console, because an exception of that work leaves
    [analyze_stock] as a [RetryError] or is no [Exception], and the [except]
    clause of the loop names neither. The five-minute alarm of the script,
    which can raise [TimeoutError] outside that work (during the wait
    between two attempts, for one), is not embedded: this is about the runs
    in which it does not go off. *)
Theorem ticker_failures_never_reported (parse : Column -> result Column)
    (provider : string -> string -> string -> nat -> Fetch)
    (n : nat) (todo : list string) (period output_dir : string) :
  forall (i : nat) (w : World),
  filter (fun e => is_ErrorProcessing e = true)
    (stdout (batch parse provider n i todo period output_dir w).2)
  = filter (fun e => is_ErrorProcessing e = true) (stdout w).
Proof.
  induction todo as [|t rest IH]; intros i w; [done|].
  rewrite batch_step.
  pose proof (filter_reports_attempts parse provider t period output_dir
                (retries (CONFIG w)) (Z.to_nat (retries (CONFIG w) - 1))
                (push w [Analyzing i n t] (stdin w))) as Hrun.
  unfold analyze_stock, Tenacity.call. simpl in *.
  destruct (Tenacity.attempts _ _ _ _ _) as [[l|e] w'].
  - rewrite IH. simpl in Hrun. rewrite Hrun, filter_app. simpl.
    by rewrite app_nil_r.
  - simpl in *. rewrite Hrun, filter_app. simpl. by rewrite app_nil_r.
Qed.

(** ** Console and main *)

Import ConsoleNotions.

Section Symbols.

Lemma upper_char_not_lower (c : ascii) : is_lower (upper_char c) = false.
Proof. destruct c as [[] [] [] [] [] [] [] []]; reflexivity. Qed.

Lemma upper_not_lower (s : string) :
  Forall (fun c => is_lower c = false) (String.list_ascii_of_string (upper s)).
Proof.
  induction s as [|c s IH]; simpl; constructor;
    [apply upper_char_not_lower | exact IH].
Qed.

Lemma split_ws_from_ok (s : string) : forall cur,
  Forall (fun c => isspace c = false /\ is_lower c = false) cur ->
  Forall (fun c => is_lower c = false) (String.list_ascii_of_string s) ->
  Forall symbol_ok (split_ws_from cur s).
Proof.
  assert (Hflush : forall cur,
    Forall (fun c => isspace c = false /\ is_lower c = false) cur ->
    Forall symbol_ok match cur with
                     | [] => []
                     | _ => [String.string_of_list_ascii (rev cur)]
                     end).
  { intros [|c cur] Hcur; constructor; [|constructor]. split.
    - intros H. apply (f_equal String.list_ascii_of_string) in H.
      rewrite String.list_ascii_of_string_of_list_ascii in H. simpl in H.
      by destruct (rev cur).
    - rewrite String.list_ascii_of_string_of_list_ascii.
      apply Forall_rev in Hcur. exact Hcur. }
  induction s as [|c s IH]; intros cur Hcur Hs; simpl.
  - by apply Hflush.
  - inversion Hs as [|? ? Hc Hrest]; subst.
    destruct (isspace c) eqn:Hsp.
    + apply Forall_app. split; [by apply Hflush|].
      apply IH; [constructor | done].
    + apply IH; [|done]. by constructor.
Qed.

End Symbols.

Section Prompts.
Variable parse : Column -> result Column.
Variable abspath : string -> string.
Variable provider : string -> string -> string -> nat -> Fetch.

Lemma ask_output_dir_skipped (args : Args) (w : World) :
  asks_output_dir abspath args (CONFIG w) = false ->
  ask_output_dir abspath args w = (Ok args, w).
Proof.
  intros H. unfold ask_output_dir, bind at 1, get_CONFIG. by rewrite H.
Qed.

Lemma attempts_first_ok (t period output_dir : string) (r : Z)
    (l : list string) (k : nat) (w : World) :
  attempt_outcome (provider t period output_dir (calls w)) = Ok l ->
  Tenacity.attempts backoff (Tenacity.stop_after_attempt r)
    (analyze_stock_once parse provider t period output_dir) k w
  = (Ok l, attempted w t (Ok l)).
Proof.
  intros H. destruct k; simpl; by rewrite analyze_stock_once_outcome, H.
Qed.

Lemma batch_all_succeed (n : nat) (period output_dir : string)
    (todo : list string) :
  (forall t c, t ∈ todo ->
     exists l, attempt_outcome (provider t period output_dir c) = Ok l) ->
  forall (i : nat) (w : World),
  batch parse provider n i todo period output_dir w =
  (Ok tt, {| stdin := stdin w; stdout := stdout w ++ success_log n i todo;
             CONFIG := CONFIG w; calls := (calls w + length todo)%nat |}).
Proof.
  induction todo as [|t rest IH]; intros Hok i w.
  - simpl. unfold ret. destruct w. simpl. rewrite app_nil_r.
    by replace (calls0 + 0)%nat with calls0 by lia.
  - rewrite batch_step. unfold analyze_stock, Tenacity.call.
    destruct (Hok t (calls w)) as [l Hl]; [by left|].
    rewrite (attempts_first_ok _ _ _ _ l) by exact Hl.
    rewrite IH by (intros t' c Ht'; apply Hok; by right).
    unfold attempted. simpl. f_equal. f_equal.
    + by rewrite <- !app_assoc.
    + lia.
Qed.

End Prompts.

(** X10: when tickers are given on the command line together with an output
    directory other than the default, and the provider has data for each of
    them at the first attempt, the run asks for the data types only,
    analyses every ticker once, in the order given and numbered from 1, and
    ends normally after the completion banner. The banner names the
    directory of [CONFIG], which the command line does not change. *)
Theorem run_all_tickers_succeed
    (parse : Column -> result Column) (abspath : string -> string)
    (provider : string -> string -> string -> nat -> Fetch)
    (args : Args) (w : World) (a : string) (rest : list string) :
  tickers args <> [] ->
  asks_output_dir abspath args (CONFIG w) = false ->
  stdin w = a :: rest ->
  lower (strip a) <> "exit" ->
  (forall t c, t ∈ tickers args ->
     exists l, attempt_outcome (provider t (period args) (output args) c) = Ok l) ->
  run parse abspath provider args w =
  (stdout w
     ++ [Header; Menu; Input AskDataTypes; (selection (strip a)).2;
         Processing (length (tickers args))]
     ++ success_log (length (tickers args)) 1 (tickers args)
     ++ [Complete (output_directory (CONFIG w))],
   Finished).
Proof.
  intros Ht Hask Hin Ha Hok. unfold run.
  rewrite (main_selected _ _ _ _ _ a rest) by done.
  unfold after_selection. unfold bind at 1. rewrite ask_tickers_given by done.
  unfold bind at 1. rewrite ask_output_dir_skipped by exact Hask.
  unfold bind at 1. rewrite emit_spec.
  unfold bind at 1. rewrite batch_all_succeed by exact Hok.
  unfold bind at 1, get_CONFIG. rewrite emit_spec. simpl.
  f_equal. by rewrite <- !app_assoc.
Qed.

Lemma run_all_tickers_succeed_witness :
  run parse_timestamps same_path healthy_provider two_tickers (world ["0"])
  = ([Header; Menu; Input AskDataTypes; SelectedAll; Processing 2;
      Analyzing 1 2 "AAPL"; Downloading "AAPL"; Saved "AAPL";
      Analyzing 2 2 "MSFT"; Downloading "MSFT"; Saved "MSFT";
      Complete "/home/user/Analysis"], Finished).
Proof.
  apply (run_all_tickers_succeed parse_timestamps same_path healthy_provider
           two_tickers (world ["0"]) "0" []).
  - discriminate.
  - reflexivity.
  - reflexivity.
  - discriminate.
  - intros t c _. by exists ["info"].
Defined.

(** X11: the line typed at the ticker prompt is uppercased and cut at
    whitespace: every symbol handed to the batch is non-empty and has no
    whitespace and no lowercase letter. A blank answer at the period prompt
    stands for the default period, any other answer is taken as typed. The
    output argument is left alone, and the two lines are consumed. *)
Theorem typed_tickers_and_period (args : Args) (w : World) (a b : string)
    (rest : list string) :
  tickers args = [] ->
  stdin w = a :: b :: rest ->
  lower (strip a) <> "exit" -> lower (strip b) <> "exit" ->
  exists args',
    ask_tickers_and_period args w
      = (Ok args', push w [Input AskTickers; Input AskPeriod] rest) /\
    tickers args' = split_ws (upper a) /\
    Forall symbol_ok (tickers args') /\
    (b = "" -> period args' = default_period (CONFIG w)) /\
    (b <> "" -> period args' = b) /\
    output args' = output args.
Proof.
  intros Ht Hin Ha Hb. unfold ask_tickers_and_period. rewrite Ht.
  unfold bind at 1. rewrite (safe_input_line _ _ a (b :: rest)) by done.
  unfold bind at 1. rewrite (safe_input_line _ _ b rest) by done.
  rewrite push_push. eexists. split; [reflexivity|]. simpl.
  split; [done|]. split.
  - apply split_ws_from_ok; [constructor | apply upper_not_lower].
  - split; [by intros -> | split; [|done]].
    intros Hne%String.eqb_neq. by rewrite Hne.
Qed.

Lemma typed_tickers_and_period_witness :
  exists args',
    ask_tickers_and_period interactive_args (world [" aapl  brk.b "; ""])
      = (Ok args', push (world [" aapl  brk.b "; ""])
                        [Input AskTickers; Input AskPeriod] []) /\
    tickers args' = ["AAPL"; "BRK.B"] /\ period args' = "2y".
Proof.
  destruct (typed_tickers_and_period interactive_args
              (world [" aapl  brk.b "; ""]) " aapl  brk.b " "" [])
    as (args' & H & Ht & _ & Hp & _ & _);
    [reflexivity | reflexivity | discriminate | discriminate |].
  exists args'. split; [exact H|]. split; [exact Ht | by apply Hp].
Defined.

(** X12: at the output-directory prompt a blank answer stands for the
    default directory in absolute form, any other answer for itself once
    trimmed; the directory becomes the output of the run and the
    [output_directory] of [CONFIG]; tickers, period and the other settings
    are untouched, and one line is consumed. *)
Theorem output_directory_answer (abspath : string -> string) (args : Args)
    (w : World) (a : string) (rest : list string) :
  asks_output_dir abspath args (CONFIG w) = true ->
  stdin w = a :: rest ->
  lower (strip a) <> "exit" ->
  exists args' w',
    ask_output_dir abspath args w = (Ok args', w') /\
    (strip a = "" -> output args' = abspath (output_directory (CONFIG w))) /\
    (strip a <> "" -> output args' = strip a) /\
    output_directory (CONFIG w') = output args' /\
    tickers args' = tickers args /\ period args' = period args /\
    data_types (CONFIG w') = data_types (CONFIG w) /\
    retries (CONFIG w') = retries (CONFIG w) /\
    stdin w' = rest /\ stdout w' = stdout w ++ [Input AskOutputDir].
Proof.
  intros Hask Hin Ha. unfold ask_output_dir, bind at 1, get_CONFIG.
  rewrite Hask. unfold bind at 1.
  rewrite (safe_input_line _ _ a rest) by done.
  eexists _, _. split; [reflexivity|]. simpl.
  split; [by intros -> |]. split; [|done].
  intros Hne%String.eqb_neq. by rewrite Hne.
Qed.

Lemma output_directory_answer_witness :
  exists args' w',
    ask_output_dir same_path interactive_args (world ["  /data/runs "])
      = (Ok args', w') /\
    output args' = "/data/runs" /\
    output_directory (CONFIG w') = output args'.
Proof.
  destruct (output_directory_answer same_path interactive_args
              (world ["  /data/runs "]) "  /data/runs " [])
    as (args' & w' & H & _ & Hout & Hcfg & _);
    [reflexivity | reflexivity | discriminate |].
  exists args', w'. split; [exact H|]. split; [|exact Hcfg].
  apply Hout. discriminate.
Defined.

(** X13: when standard input is at its end at the first prompt, [input]
    raises [EOFError], which nothing catches: the process ends with a
    traceback after the title and the menu, before any ticker is looked
    at. *)
Theorem end_of_input_at_menu
    (parse : Column -> result Column) (abspath : string -> string)
    (provider : string -> string -> string -> nat -> Fetch)
    (args : Args) (w : World) :
  stdin w = [] ->
  run parse abspath provider args w
  = (stdout w ++ [Header; Menu],
     Traceback (mk_exn EOFError "EOF when reading a line")).
Proof.
  intros Hin. unfold run, main. unfold bind at 1. rewrite emit_spec.
  unfold bind at 1, select_data_types. unfold bind at 1. rewrite emit_spec.
  unfold bind at 1, safe_input. unfold bind at 1, input. simpl.
  rewrite Hin. simpl. by rewrite <- app_assoc.
Qed.

Lemma end_of_input_at_menu_witness :
  run parse_timestamps same_path healthy_provider two_tickers (world [])
  = ([Header; Menu], Traceback (mk_exn EOFError "EOF when reading a line")).
Proof.
  apply (end_of_input_at_menu parse_timestamps same_path healthy_provider
           two_tickers (world [])).
  reflexivity.
Defined.

Section MenuInvariant.

Lemma chosen_in_menu (ns : list Z) (t : string) :
  t ∈ chosen ns -> t ∈ all_types.
Proof.
  unfold chosen. intros (n & _ & Hn)%list_elem_of_omap.
  destruct ((1 <=? n) && (n <=? 10)); [|done].
  by eapply list_elem_of_lookup_2.
Qed.

End MenuInvariant.

(** X14: whatever is answered at the data-type prompt, short of the
    sentinel, the selection that comes back is never empty and holds only
    data types of the menu. *)
Theorem selection_is_never_empty (w : World) (line : string)
    (rest : list string) :
  stdin w = line :: rest ->
  lower (strip line) <> "exit" ->
  exists sel w',
    select_data_types w = (Ok sel, w') /\
    sel <> [] /\
    forall t, t ∈ sel -> t ∈ all_types.
Proof.
  intros Hin Hs. eexists _, _. split; [by apply select_data_types_line|].
  unfold selection.
  destruct (String.eqb (strip line) "" || String.eqb (strip line) "0");
    [done|].
  destruct (numbers (strip line)) as [ns|]; [|done].
  destruct (chosen ns) as [|t ts] eqn:Hc; [done|]. simpl.
  split; [done|]. intros t' Ht'. apply (chosen_in_menu ns). by rewrite Hc.
Qed.

Lemma selection_is_never_empty_witness :
  exists sel w',
    select_data_types (world ["11, 12, -4"]) = (Ok sel, w') /\ sel <> [].
Proof.
  destruct (selection_is_never_empty (world ["11, 12, -4"]) "11, 12, -4" [])
    as (sel & w' & H & Hne & _); [reflexivity | discriminate |].
  exists sel, w'. split; [exact H | exact Hne].
Defined.

(** ** Statistics engine, further *)

Import StatsSamples.

Section YearLookup.

Lemma monotonic_suffix (l1 l2 : list Z) :
  is_monotonic_increasing (l1 ++ l2) = true ->
  is_monotonic_increasing l2 = true.
Proof.
  induction l1 as [|a l1 IH]; [done|]. intros H. apply IH.
  by eapply monotonic_tail.
Qed.

Lemma searchsorted_left_prefix (t x : Z) (l1 l2 : list Z) :
  Forall (fun v => v < t) l1 -> t <= x ->
  searchsorted_left t (l1 ++ x :: l2) = length l1.
Proof.
  intros Hl Hx. induction Hl as [|v l1 Hv _ IH]; simpl.
  - destruct (Z.ltb_spec x t); [lia | done].
  - destruct (Z.ltb_spec v t); [by rewrite IH | lia].
Qed.

Lemma searchsorted_right_prefix (t x : Z) (l1 l2 : list Z) :
  Forall (fun v => v <= t) l1 -> x <= t ->
  (length l1 < searchsorted_right t (l1 ++ x :: l2))%nat.
Proof.
  intros Hl Hx. induction Hl as [|v l1 Hv _ IH]; simpl.
  - destruct (Z.leb_spec x t); lia.
  - destruct (Z.leb_spec v t); lia.
Qed.

Lemma zip_columns {A B C} (f : A -> B) (g : A -> C) (l : list A) :
  zip (f <$> l) (g <$> l) = (fun x => (f x, g x)) <$> l.
Proof. induction l as [|x l IH]; [done|]. simpl. by f_equal. Qed.

Lemma filter_older_rows {A} (t1 t2 : Z) (f : HistRow -> A)
    (before : list HistRow) :
  Forall (fun b => Date b < t1) before ->
  filter (fun tv : Z * A => t1 <= tv.1 <= t2)
    ((fun x => (Date x, f x)) <$> before) = [].
Proof.
  induction 1 as [|b before Hb _ IH]; [done|].
  rewrite fmap_cons, filter_cons_False; [done|]. simpl. lia.
Qed.

(** The lookup of a year in which a row lies returns the rows from the
    first such row on, whether the index is sorted or not. *)
Lemma loc_year_first_row {A} (year : Z) (before after : list HistRow)
    (r : HistRow) (f : HistRow -> A) :
  Forall (fun b => Date b < year_start year) before ->
  year_start year <= Date r < year_start (year + 1) ->
  exists more,
    loc_year year (Date <$> before ++ r :: after) (f <$> before ++ r :: after)
    = Ok (f r :: more).
Proof.
  intros Hbefore [Hlo Hhi]. unfold loc_year. cbv zeta.
  pose proof (year_start_next year) as Hnext.
  destruct (is_monotonic_increasing (Date <$> before ++ r :: after)) eqn:Hs.
  - rewrite !fmap_app, !fmap_cons in *.
    match goal with
    | |- context [if ?b then Raise _ else _] => assert (Hrange : b = false)
    end.
    { assert (Hfinal : forall final,
        last ((Date <$> before) ++ Date r :: (Date <$> after)) = Some final ->
        Date r <= final).
      { intros final Hlast. apply monotonic_suffix in Hs.
        rewrite last_app_cons in Hlast. apply last_elem_of in Hlast.
        apply elem_of_cons in Hlast as [->|Hin]; [lia|].
        by eapply monotonic_head_le. }
      destruct before as [|b before].
      - change ((Date <$> []) ++ Date r :: (Date <$> after))
          with (Date r :: (Date <$> after)) in *.
        cbv beta iota.
        destruct (last (Date r :: (Date <$> after))) as [final|] eqn:Hlast;
          [|done].
        specialize (Hfinal final eq_refl).
        apply orb_false_iff. split; apply andb_false_iff.
        + right. apply Z.ltb_ge. lia.
        + left. apply Z.ltb_ge. lia.
      - inversion Hbefore; subst. rewrite fmap_cons in *.
        change ((Date b :: (Date <$> before)) ++ Date r :: (Date <$> after))
          with (Date b :: ((Date <$> before) ++ Date r :: (Date <$> after))) in *.
        cbv beta iota.
        destruct (last (Date b :: _)) as [final|] eqn:Hlast; [|done].
        specialize (Hfinal final eq_refl).
        apply orb_false_iff. split; apply andb_false_iff.
        + left. apply Z.ltb_ge. lia.
        + left. apply Z.ltb_ge. lia. }
    rewrite Hrange.
    rewrite searchsorted_left_prefix;
      [| by apply Forall_fmap | done].
    pose proof (searchsorted_right_prefix (year_start (year + 1) - 1) (Date r)
                  (Date <$> before) (Date <$> after)) as Hright.
    rewrite length_fmap in *.
    rewrite (drop_app_length' _ _ (length before)) by (by rewrite length_fmap).
    destruct (searchsorted_right _ _ - length before)%nat as [|k] eqn:Hk.
    + exfalso. assert (length before < searchsorted_right
        (year_start (year + 1) - 1) ((Date <$> before) ++ Date r :: (Date <$> after)))%nat.
      { apply Hright; [|lia]. apply Forall_fmap.
        eapply Forall_impl; [exact Hbefore|]. simpl. intros; lia. }
      lia.
    + simpl. eauto.
  - rewrite zip_columns, fmap_app, filter_app.
    rewrite (filter_older_rows _ _ _ _ Hbefore). simpl. rewrite filter_cons_True by (simpl; lia).
    simpl. eauto.
Qed.

End YearLookup.

(** X15: [analyze_stock_data] returns a summary exactly when the series has
    a row and the year-to-date lookup finds a starting price; nothing else
    in it can fail. *)
Theorem analyze_stock_data_succeeds_iff (now_year : Z)
    (hist_data : list HistRow) :
  (exists a, analyze_stock_data now_year hist_data = Ok a) <->
  hist_data <> [] /\ exists p, ytd_start_price now_year hist_data = Ok p.
Proof.
  unfold analyze_stock_data. split.
  - intros [a H]. destruct hist_data as [|r rest]; [done|].
    split; [done|].
    destruct (iloc_last (Close <$> r :: rest)); [|done]. simpl in H.
    destruct (ytd_start_price now_year (r :: rest)) as [p|]; [|done].
    by exists p.
  - intros [Hne [p Hp]].
    destruct (moving_average_spec 50 hist_data Hne) as ([c50 H50] & _).
    destruct (moving_average_spec 200 hist_data Hne) as ([c200 H200] & _).
    unfold iloc_last.
    destruct (last (Close <$> hist_data)) as [c|] eqn:Hlast.
    + simpl. rewrite Hp. simpl. rewrite H50. simpl. rewrite H200. simpl. eauto.
    + apply last_None in Hlast. by destruct hist_data.
Qed.

(** X16: when the series has a row in the current year and every row before
    the first such row is older than the year, the year-to-date starting
    price is the close of that row; a summary is returned, whose current
    price is the close of the last row and whose year-to-date return is the
    change from that starting price to the current price, in percent. *)
Theorem ytd_starts_at_first_row_of_year (now_year : Z)
    (before after : list HistRow) (r : HistRow) :
  Forall (fun b => Date b < year_start now_year) before ->
  year_start now_year <= Date r < year_start (now_year + 1) ->
  ytd_start_price now_year (before ++ r :: after) = Ok (Close r) /\
  exists a,
    analyze_stock_data now_year (before ++ r :: after) = Ok a /\
    last (Close <$> before ++ r :: after) = Some (Current_Price a) /\
    Return_YTD a = pct_change_of (Current_Price a) (Close r).
Proof.
  intros Hbefore Hr.
  destruct (loc_year_first_row now_year before after r Close Hbefore Hr)
    as [more Hloc].
  assert (Hytd : ytd_start_price now_year (before ++ r :: after) = Ok (Close r)).
  { unfold ytd_start_price. by rewrite Hloc. }
  split; [done|].
  assert (Hne : before ++ r :: after <> []) by (by destruct before).
  destruct (moving_average_spec 50 _ Hne) as ([c50 H50] & _).
  destruct (moving_average_spec 200 _ Hne) as ([c200 H200] & _).
  unfold analyze_stock_data, iloc_last.
  destruct (last (Close <$> before ++ r :: after)) as [c|] eqn:Hlast.
  - simpl. rewrite Hytd. simpl. rewrite H50. simpl. rewrite H200. simpl.
    eexists. split; [reflexivity|]. done.
  - apply last_None in Hlast. by destruct before.
Qed.

Lemma ytd_starts_at_first_row_of_year_witness :
  ytd_start_price 2026 turn_of_year = Ok (Fin 10) /\
  exists a, analyze_stock_data 2026 turn_of_year = Ok a /\
            Return_YTD a = pct_change_of (Current_Price a) (Fin 10).
Proof.
  destruct (ytd_starts_at_first_row_of_year 2026
              [session 1767139200000000000 8]
              [session 1767571200000000000 12]
              (session 1767312000000000000 10))
    as (Hytd & a & Ha & _ & Hret).
  - repeat constructor.
  - split; [discriminate | reflexivity].
  - split; [exact Hytd|]. exists a. split; [exact Ha | exact Hret].
Defined.


Section Week52.


End Week52.



Section MeanBounds.

Lemma inject_Z_S (n : nat) :
  (inject_Z (Z.of_nat (S n)) == inject_Z (Z.of_nat n) + 1)%Q.
Proof. rewrite Nat2Z.inj_succ. unfold Z.succ. by rewrite inject_Z_plus. Qed.

Lemma Qsum_upper (hi : Q) (qs : list Q) :
  Forall (fun q => (q <= hi)%Q) qs ->
  (Qsum qs <= inject_Z (Z.of_nat (length qs)) * hi)%Q.
Proof.
  induction 1 as [|q qs Hq _ IH]; simpl.
  - rewrite Qmult_0_l. apply Qle_refl.
  - change (Z.pos (Pos.of_succ_nat (length qs)))
      with (Z.of_nat (S (length qs))).
    rewrite inject_Z_S, Qmult_plus_distr_l, Qmult_1_l, Qplus_comm.
    by apply Qplus_le_compat.
Qed.

Lemma Qsum_lower (lo : Q) (qs : list Q) :
  Forall (fun q => (lo <= q)%Q) qs ->
  (inject_Z (Z.of_nat (length qs)) * lo <= Qsum qs)%Q.
Proof.
  induction 1 as [|q qs Hq _ IH]; simpl.
  - rewrite Qmult_0_l. apply Qle_refl.
  - change (Z.pos (Pos.of_succ_nat (length qs)))
      with (Z.of_nat (S (length qs))).
    rewrite inject_Z_S, Qmult_plus_distr_l, Qmult_1_l, Qplus_comm.
    by apply Qplus_le_compat.
Qed.

Lemma mean_between (lo hi : Q) (qs : list Q) :
  qs <> [] ->
  Forall (fun q => (lo <= q <= hi)%Q) qs ->
  (lo <= mean qs <= hi)%Q.
Proof.
  intros Hne Hall. unfold mean.
  assert (Hpos : (0 < inject_Z (Z.of_nat (length qs)))%Q).
  { change 0%Q with (inject_Z 0). rewrite <- Zlt_Qlt.
    destruct qs; [done | simpl; lia]. }
  split.
  - apply Qle_shift_div_l; [done|]. rewrite Qmult_comm.
    apply Qsum_lower. eapply Forall_impl; [exact Hall|]. by intros q [? _].
  - apply Qle_shift_div_r; [done|]. rewrite Qmult_comm.
    apply Qsum_upper. eapply Forall_impl; [exact Hall|]. by intros q [_ ?].
Qed.

End MeanBounds.

(** X18: when the series has at least as many rows as the window and the
    closes of the window are all present, the moving average is a number
    that lies between every lower and every upper bound of those closes: it
    is never below the lowest nor above the highest close of its window. *)
Theorem moving_average_within_closes (w : nat) (hist_data : list HistRow)
    (qs : list Q) (lo hi : Q) :
  (0 < w <= length hist_data)%nat ->
  tail w (Close <$> hist_data) = Fin <$> qs ->
  Forall (fun q => (lo <= q <= hi)%Q) qs ->
  exists m, moving_average w hist_data = Ok (Fin m) /\ (lo <= m <= hi)%Q.
Proof.
  intros [Hw Hlen] Hqs Hall.
  assert (Hne : hist_data <> []) by (destruct hist_data; [simpl in Hlen; lia | done]).
  destruct (moving_average_spec w hist_data Hne) as (_ & _ & Hfull).
  exists (mean qs). split; [by apply Hfull|].
  apply mean_between; [|done].
  intros ->. apply (f_equal length) in Hqs.
  rewrite length_tail, length_fmap in Hqs. simpl in Hqs. lia.
Qed.

Lemma moving_average_within_closes_witness :
  exists m, moving_average 2 turn_of_year = Ok (Fin m) /\ (10 <= m <= 12)%Q.
Proof.
  apply (moving_average_within_closes 2 turn_of_year [10; 12]%Q).
  - simpl. lia.
  - reflexivity.
  - repeat constructor; discriminate.
Defined.

(** ** Normalizer: [handle_data], further *)

(** X19: [handle_data] returns [None], a frame or a series, never the dict
    or the other object it was given. A series it returns is the input and
    has rows. A frame it returns has rows and columns, except for the empty
    dict under "info", which gives a frame of one row and no column that
    pandas counts as empty. *)
Theorem handle_data_result_shape (data : PyObj) (data_type : option string) :
  handle_data data data_type = ONone \/
  (exists f, handle_data data data_type = OFrame f /\
     (frame_empty f = true ->
        data = ODict ∅ /\ data_type = Some "info")) \/
  (exists s, handle_data data data_type = OSeries s /\
     data = OSeries s /\ series_empty s = false).
Proof.
  unfold handle_data. destruct data as [|d|f|s|a]; simpl.
  - by left.
  - destruct data_type as [dt|]; [|by left].
    destruct (String.eqb_spec dt "info") as [->|]; [|by left].
    right. left. eexists. split; [done|]. unfold frame_empty. simpl.
    rewrite map_size_fmap. intros H%Nat.eqb_eq%map_size_empty_inv.
    by subst.
  - destruct (frame_empty f) eqn:He; [by left|]. right. left.
    exists f. split; [by destruct data_type|]. by rewrite He.
  - destruct (series_empty s) eqn:He; [by left|]. right. right.
    exists s. by destruct data_type.
  - left. by destruct a as [[]|], data_type.
Qed.

(** ** Datasets and spreadsheets *)

Import Datasets DatasetNotions DatasetSamples.

Section Spreadsheet.

Lemma elem_of_datetime64_cols (df : DataFrame) (k : string) :
  k ∈ datetime64_cols df <->
  exists l, columns df !! k = Some (Datetime64 None l).
Proof.
  unfold datetime64_cols. rewrite list_elem_of_fmap. split.
  - intros ([k' c] & -> & [Hsel Hin]%list_elem_of_filter).
    apply elem_of_map_to_list in Hin. simpl in *.
    destruct c as [| | | [tz|] l |]; try done. by exists l.
  - intros (l & Hk). exists (k, Datetime64 None l). split; [done|].
    apply list_elem_of_filter. split; [done|]. by apply elem_of_map_to_list.
Qed.

Lemma NoDup_datetime64_cols (df : DataFrame) : NoDup (datetime64_cols df).
Proof.
  unfold datetime64_cols.
  eapply sublist_NoDup; [apply (NoDup_fst_map_to_list (columns df))|].
  apply fmap_sublist, sublist_filter.
Qed.

(** The loop that turns datetime columns into dates, over distinct labels
    that all name datetime columns without time zone. *)
Lemma date_loop (cols : list string) :
  NoDup cols -> forall df,
  (forall k, k ∈ cols -> exists l, columns df !! k = Some (Datetime64 None l)) ->
  exists out, for_each date_column df cols = Ok out /\
    index out = index df /\
    forall k, columns out !! k =
      if bool_decide (k ∈ cols) then excel_column <$> columns df !! k
      else columns df !! k.
Proof.
  induction 1 as [|a cols Ha Hnd IH]; intros df Hall.
  - exists df. split; [done|]. split; [done|]. intros k.
    case_bool_decide as H; [inversion H | done].
  - destruct (Hall a) as (l & Hl); [by left|].
    simpl. unfold date_column at 1, getitem. rewrite Hl. simpl.
    destruct (IH (setitem df a (excel_column (Datetime64 None l))))
      as (out & Hout & Hidx & Hcols).
    { intros k Hk. simpl. rewrite lookup_insert_ne by (intros ->; done).
      apply Hall. by right. }
    exists out. split; [exact Hout|]. split; [done|].
    intros k. rewrite Hcols. simpl.
    destruct (decide (a = k)) as [->|Hne].
    + rewrite lookup_insert_eq, Hl.
      rewrite (bool_decide_eq_false_2 (k ∈ cols)) by done.
      by rewrite (bool_decide_eq_true_2 (k ∈ k :: cols)) by (by left).
    + rewrite lookup_insert_ne by done.
      case_bool_decide as H1; case_bool_decide as H2; try done.
      * exfalso. apply H2. by right.
      * apply elem_of_cons in H2 as [->|?]; done.
Qed.

Lemma excel_data_closed_form (d : DataFrame) :
  excel_data d =
  Ok {| index := index_date (index d); columns := excel_column <$> columns d |}.
Proof.
  unfold excel_data.
  set (e := {| index := index_date (index d); columns := columns d |}).
  destruct (date_loop (datetime64_cols e) (NoDup_datetime64_cols e) e)
    as (out & -> & Hidx & Hcols).
  { intros k Hk. by apply elem_of_datetime64_cols. }
  f_equal. destruct out as [i m]. simpl in *. f_equal; [done|].
  apply map_eq. intros k. rewrite Hcols, lookup_fmap.
  destruct (columns d !! k) as [c|] eqn:Hk; simpl.
  - case_bool_decide as Hin; [done|]. f_equal.
    destruct c as [| | | [tz|] l |]; try done.
    exfalso. apply Hin. apply elem_of_datetime64_cols. by exists l.
  - by case_bool_decide.
Qed.

Lemma remove_timezone_Frame (parse : Column -> result Column) (f : DataFrame) :
  remove_timezone parse (Some (Frame f)) = Ok (Some (Frame (normalized f))).
Proof. simpl. by rewrite remove_timezone_frame_closed_form. Qed.

Lemma excel_column_not_datetime (c : Column) :
  has_tz c = false -> is_datetime64_any_dtype (excel_column c) = false.
Proof. by destruct c as [| | | [tz|] l |]. Qed.

Lemma index_date_dates (i : Index) :
  is_DatetimeIndex i = true ->
  index_date (strip_index i) =
  ObjectIndex ((fun o => match o with
                         | Some d => VDate d
                         | None => VNaT
                         end) <$> dates i).
Proof.
  destruct i as [| tz l |]; try done. intros _. unfold dates. simpl.
  destruct tz as [tz|]; simpl; f_equal; unfold tz_localize_none;
    induction l as [|[u|] l IH]; simpl; by f_equal.
Qed.

End Spreadsheet.

(** X20: when the datetime columns of a dataset all have a dtype that the
    list of [remove_timezone] names, the copy that is handed to the
    spreadsheet writer, made from the frame that [remove_timezone] returns,
    has no datetime dtype left: its index is not a [DatetimeIndex] and none
    of its columns is a datetime column (what a column of dtype [object]
    holds is not looked at). It has the columns of the dataset, and a date
    index of the dataset appears as the calendar dates of its wall-clock
    readings. No step of this raises. *)
Theorem spreadsheet_copy_holds_dates (parse : Column -> result Column)
    (df : DataFrame) :
  dtypes_listed df ->
  exists out x,
    remove_timezone_frame parse df = Ok out /\
    excel_data out = Ok x /\
    is_DatetimeIndex (index x) = false /\
    (forall k c, columns x !! k = Some c -> is_datetime64_any_dtype c = false) /\
    dom (columns x) = dom (columns df) /\
    (is_DatetimeIndex (index df) = true ->
       index x = ObjectIndex ((fun o => match o with
                                        | Some d => VDate d
                                        | None => VNaT
                                        end) <$> dates (index df))).
Proof.
  intros _. rewrite remove_timezone_frame_closed_form. eexists _, _.
  split; [reflexivity|]. rewrite excel_data_closed_form.
  split; [reflexivity|]. simpl. split; [|split; [|split]].
  - by destruct (index df) as [| [tz|] l |].
  - intros k c. rewrite !lookup_fmap.
    destruct (columns df !! k) as [c0|]; [|done]. simpl. intros [= <-].
    apply excel_column_not_datetime, strip_column_no_tz.
  - by rewrite !dom_fmap_L.
  - apply index_date_dates.
Qed.

(** The events of 2024-01-03 and 2024-01-04: days 19725 and 19726 since the
    epoch. *)
Lemma spreadsheet_copy_holds_dates_witness :
  exists out x,
    remove_timezone_frame parse_timestamps events_frame = Ok out /\
    excel_data out = Ok x /\
    index x = ObjectIndex [VDate 19725; VDate 19726] /\
    columns x !! "at" = Some (Object [VDate 19725; VNaT]).
Proof.
  destruct (spreadsheet_copy_holds_dates parse_timestamps events_frame
              events_listed) as (out & x & Hout & Hx & _ & _ & _ & Hidx).
  exists out, x. split; [exact Hout|]. split; [exact Hx|].
  split; [exact (Hidx eq_refl)|].
  rewrite remove_timezone_frame_closed_form in Hout. injection Hout as <-.
  rewrite excel_data_closed_form in Hx. injection Hx as <-.
  reflexivity.
Defined.

Section DatasetLoop.
Variable parse : Column -> result Column.
Variable to_excel : string -> DataFrame -> result unit.
Variable cfg : Config.
Variable stock : gmap string (result PyObj).

(** What a value that is no series normalises to. *)
Lemma handle_data_not_series (data : PyObj) (data_type : option string) :
  (forall s, data <> OSeries s) ->
  handle_data data data_type = ONone \/
  exists f, handle_data data data_type = OFrame f.
Proof.
  intros Hdata. unfold handle_data.
  destruct (is_None data || has_true_empty data); [by left|].
  destruct data as [|d|f|s|a].
  - left. by destruct data_type.
  - destruct data_type as [dt|]; [|by left].
    destruct (String.eqb dt "info"); [right; by eexists | by left].
  - right. exists f. by destruct data_type.
  - by destruct (Hdata s).
  - left. by destruct data_type.
Qed.

Lemma try_dataset_store (st : gmap string table * list dataset_event)
    (data_type : string) (data : PyObj) :
  stock !! data_type = Some (Ok data) ->
  (try_dataset parse to_excel cfg stock st data_type).2.1
  = store stock st.1 data_type.
Proof.
  intros Hdata. unfold try_dataset, getattr, store, dataset_of, dataset_frame.
  rewrite Hdata.
  set (framed := match data with
                 | OSeries s => OFrame (to_frame s (capitalize data_type))
                 | _ => data
                 end).
  assert (Hframed : forall s, framed <> OSeries s) by (by destruct data).
  destruct (handle_data_not_series framed (Some data_type) Hframed)
    as [H | (f & H)]; rewrite H.
  - done.
  - rewrite remove_timezone_Frame.
    destruct (excel_enabled cfg); [|done].
    rewrite excel_data_closed_form.
    by destruct (to_excel data_type _).
Qed.

Lemma process_data_type_store (st st' : gmap string table * list dataset_event)
    (data_type : string) :
  process_data_type parse to_excel cfg stock st data_type = Ok st' ->
  st'.1 = store stock st.1 data_type /\ readable stock data_type.
Proof.
  unfold process_data_type, hasattr, getattr, readable.
  destruct (stock !! data_type) as [[data|e]|] eqn:Hattr; simpl.
  - pose proof (try_dataset_store st data_type data Hattr) as Hstore.
    destruct (try_dataset parse to_excel cfg stock st data_type)
      as [[u|e] st1]; simpl in *.
    + intros [= <-]. by split.
    + match goal with
      | |- (if ?b then _ else _) = _ -> _ => destruct b; [|done]
      end.
      intros [= <-]. by split.
  - destruct (issubclass (exn_class e) AttributeError) eqn:Hsub; simpl;
      [|done].
    intros [= <-]. split.
    + unfold store, dataset_of, dataset_frame. by rewrite Hattr.
    + by intros e' [= <-].
  - intros [= <-]. split; [|done]. unfold store, dataset_of, dataset_frame. by rewrite Hattr.
Qed.

Lemma for_each_store (l : list string) :
  forall (st st' : gmap string table * list dataset_event),
  for_each (process_data_type parse to_excel cfg stock) st l = Ok st' ->
  st'.1 = foldl (store stock) st.1 l /\ Forall (readable stock) l.
Proof.
  induction l as [|dt l IH]; intros st st'; simpl.
  - intros [= <-]. by split.
  - destruct (process_data_type parse to_excel cfg stock st dt) as [st1|e]
      eqn:Hstep; [|done]. simpl.
    apply process_data_type_store in Hstep as [Hst1 Hread].
    intros [-> Hall]%IH. rewrite Hst1. split; [done | by constructor].
Qed.

Lemma lookup_store (m : gmap string table) (dt k : string) :
  store stock m dt !! k =
  if decide (dt = k)
  then match dataset_of stock k with Some t => Some t | None => m !! k end
  else m !! k.
Proof.
  unfold store. destruct (decide (dt = k)) as [->|Hne].
  - destruct (dataset_of stock k); [by rewrite lookup_insert_eq | done].
  - destruct (dataset_of stock dt); [by rewrite lookup_insert_ne | done].
Qed.

Lemma lookup_foldl_store (l : list string) : forall (m : gmap string table)
    (k : string),
  foldl (store stock) m l !! k =
  if bool_decide (k ∈ l)
  then match dataset_of stock k with Some t => Some t | None => m !! k end
  else m !! k.
Proof.
  induction l as [|dt l IH]; intros m k.
  - done.
  - simpl foldl. rewrite IH, lookup_store.
    destruct (decide (dt = k)) as [->|Hne].
    + rewrite (bool_decide_eq_true_2 (k ∈ k :: l)) by (by left).
      case_bool_decide; by destruct (dataset_of stock k).
    + case_bool_decide as H1; case_bool_decide as H2; try done.
      * exfalso. apply H2. by right.
      * apply elem_of_cons in H2 as [->|?]; done.
Qed.

Lemma dataset_of_tz_free (data_type : string) (t : table) :
  dataset_of stock data_type = Some t ->
  exists f, t = Frame f /\ tz_free_frame f.
Proof.
  unfold dataset_of, dataset_frame.
  destruct (stock !! data_type) as [[data|]|]; try done.
  destruct (handle_data _ _) as [| |f| |]; try done. intros [= <-].
  exists (normalized f). split; [done|]. split.
  - apply strip_index_no_tz.
  - simpl. intros k c. rewrite lookup_fmap.
    destruct (columns f !! k); [|done]. simpl. intros [= <-].
    apply strip_column_no_tz.
Qed.

End DatasetLoop.


Section DatasetLookup.

Lemma datasets_returned_lookup (parse : Column -> result Column)
    (to_excel : string -> DataFrame -> result unit) (cfg : Config)
    (stock : gmap string (result PyObj))
    (m : gmap string table) (log : list dataset_event) :
  process_data_types parse to_excel cfg stock = Ok (m, log) ->
  forall k, m !! k = if bool_decide (k ∈ data_types cfg)
                     then dataset_of stock k else None.
Proof.
  unfold process_data_types. intros [Hm _]%for_each_store k. simpl in Hm.
  rewrite Hm, lookup_foldl_store, lookup_empty.
  case_bool_decide; [|done]. by destruct (dataset_of stock k).
Qed.

End DatasetLookup.

Lemma sample_run :
  process_data_types parse_timestamps picky_writer sample_cfg sample_stock
  = Ok (sample_result.1, sample_result.2).
Proof. vm_compute. reflexivity. Qed.

Lemma sample_listed : datasets_listed sample_cfg sample_stock.
Proof.
  unfold datasets_listed, sample_cfg. simpl.
  repeat (apply Forall_cons; split); [done | done | | | done].
  - change (dtypes_listed (to_frame dividends "Dividends")).
    unfold dtypes_listed, to_frame. simpl. by apply map_Forall_singleton.
  - change (dtypes_listed (DataFrame_from_row info_dict)).
    unfold dtypes_listed, DataFrame_from_row, info_dict. simpl.
    rewrite !fmap_insert.
    repeat (apply map_Forall_insert_2; [reflexivity|]).
    rewrite map_fmap_singleton. by apply map_Forall_singleton.
Qed.

(** X21: when the datetime columns of the requested datasets all have a
    dtype that the list of [remove_timezone] names and the loop over the
    data types completes, the dict it returns holds, for each requested data
    type whose attribute can be read and normalises to a frame, that frame
    with the time zones of its index and of its datetime columns removed,
    and nothing else. What the spreadsheet writer did does not show in it: a
    dataset whose export failed with a caught error is still returned. *)
Theorem datasets_returned (parse : Column -> result Column)
    (to_excel : string -> DataFrame -> result unit) (cfg : Config)
    (stock : gmap string (result PyObj))
    (m : gmap string table) (log : list dataset_event) :
  datasets_listed cfg stock ->
  process_data_types parse to_excel cfg stock = Ok (m, log) ->
  forall k, m !! k = if bool_decide (k ∈ data_types cfg)
                     then dataset_of stock k else None.
Proof.
  intros _. apply datasets_returned_lookup.
Qed.

Lemma datasets_returned_witness :
  sample_result.1 !! "info" = dataset_of sample_stock "info" /\
  sample_result.1 !! "historical" = None /\
  sample_result.2 = [Exported "dividends";
                     Warned "info" (mk_exn ValueError "Cannot convert to Excel")].
Proof.
  pose proof (datasets_returned parse_timestamps picky_writer sample_cfg
                sample_stock sample_result.1 sample_result.2
                sample_listed sample_run) as Hm.
  split; [exact (Hm "info")|]. split; [exact (Hm "historical") | reflexivity].
Defined.

(** X22: when the datetime columns of the requested datasets all have a
    dtype that the list of [remove_timezone] names, every dataset that the
    loop over the data types returns is a frame, never a series, and no
    dtype of it, of the index or of a column, carries a time zone. *)
Theorem datasets_are_naive_frames (parse : Column -> result Column)
    (to_excel : string -> DataFrame -> result unit) (cfg : Config)
    (stock : gmap string (result PyObj))
    (m : gmap string table) (log : list dataset_event)
    (k : string) (t : table) :
  datasets_listed cfg stock ->
  process_data_types parse to_excel cfg stock = Ok (m, log) ->
  m !! k = Some t ->
  exists f, t = Frame f /\ tz_free_frame f.
Proof.
  intros _. unfold process_data_types. intros [Hm _]%for_each_store.
  simpl in Hm. rewrite Hm, lookup_foldl_store, lookup_empty.
  case_bool_decide; [|done].
  destruct (dataset_of stock k) as [t'|] eqn:Hk; [|done].
  intros [= <-]. by eapply dataset_of_tz_free.
Qed.

Lemma datasets_are_naive_frames_witness :
  exists t f, sample_result.1 !! "dividends" = Some t /\
              t = Frame f /\ tz_free_frame f.
Proof.
  assert (Hd : sample_result.1 !! "dividends"
               = Some (Frame (normalized (to_frame dividends "Dividends"))))
    by reflexivity.
  destruct (datasets_are_naive_frames parse_timestamps picky_writer
              sample_cfg sample_stock sample_result.1 sample_result.2
              "dividends" _ sample_listed sample_run Hd) as (f & Hf & Hfree).
  exists (Frame (normalized (to_frame dividends "Dividends"))), f.
  split; [exact Hd|]. split; [exact Hf | exact Hfree].
Defined.

(** X23: when the datetime columns of the requested datasets all have a
    dtype that the list of [remove_timezone] names, a requested attribute
    that is a series with rows (dividends, splits) is returned as a frame of
    one column, named by the data type with its first letter in upper case,
    holding the values of the series and indexed by its index, both without
    time zone. *)
Theorem series_dataset_is_one_column (parse : Column -> result Column)
    (to_excel : string -> DataFrame -> result unit) (cfg : Config)
    (stock : gmap string (result PyObj))
    (m : gmap string table) (log : list dataset_event)
    (data_type : string) (s : Series) :
  datasets_listed cfg stock ->
  process_data_types parse to_excel cfg stock = Ok (m, log) ->
  data_type ∈ data_types cfg ->
  stock !! data_type = Some (Ok (OSeries s)) ->
  series_empty s = false ->
  m !! data_type =
  Some (Frame {| index := strip_index (s_index s);
                 columns := {[ capitalize data_type := strip_column (s_values s) ]} |}).
Proof.
  intros _ Hrun Hreq Hattr Hrows.
  rewrite (datasets_returned_lookup parse to_excel cfg stock m log Hrun).
  rewrite bool_decide_eq_true_2 by done.
  unfold dataset_of, dataset_frame. rewrite Hattr. unfold handle_data. simpl.
  unfold frame_empty. simpl. unfold series_empty in Hrows. rewrite Hrows.
  rewrite map_size_singleton. simpl.
  unfold normalized. simpl. by rewrite map_fmap_singleton.
Qed.

Lemma series_dataset_is_one_column_witness :
  sample_result.1 !! "dividends" =
  Some (Frame {| index := DatetimeIndex None
                            [Some 1704326400000000000; Some 1704412800000000000];
                 columns := {[ "Dividends" := Float64 [Fin (1 # 4); Fin (1 # 4)] ]} |}).
Proof.
  rewrite (series_dataset_is_one_column parse_timestamps picky_writer
             sample_cfg sample_stock sample_result.1 sample_result.2
             "dividends" dividends sample_listed sample_run);
    [reflexivity | | reflexivity | reflexivity].
  apply list_elem_of_In. simpl. tauto.
Defined.

(** X24: an attribute among the requested data types whose reading raises
    anything but [AttributeError], be it a [KeyError] or a [ValueError]
    that the [except] clause of the loop names, makes the whole loop raise:
    the reading happens in [hasattr], before the [try]. *)
Theorem unreadable_dataset_stops_the_loop (parse : Column -> result Column)
    (to_excel : string -> DataFrame -> result unit) (cfg : Config)
    (stock : gmap string (result PyObj)) (data_type : string) (e : exn) :
  data_type ∈ data_types cfg ->
  stock !! data_type = Some (Raise e) ->
  issubclass (exn_class e) AttributeError = false ->
  exists e', process_data_types parse to_excel cfg stock = Raise e'.
Proof.
  intros Hreq Hattr Hsub. unfold process_data_types.
  destruct (for_each _ _ _) as [st|e'] eqn:Hrun; [|by exists e'].
  apply for_each_store in Hrun as [_ Hread].
  rewrite Forall_forall in Hread.
  specialize (Hread data_type Hreq e Hattr). congruence.
Qed.

Lemma unreadable_dataset_stops_the_loop_witness :
  process_data_types parse_timestamps picky_writer sample_cfg broken_stock
  = Raise (mk_exn KeyError "quoteSummary") /\
  caught_by [ValueError; TypeError; KeyError] (mk_exn KeyError "quoteSummary")
  = true.
Proof.
  split; [|reflexivity].
  destruct (unreadable_dataset_stops_the_loop parse_timestamps picky_writer
              sample_cfg broken_stock "info" (mk_exn KeyError "quoteSummary"))
    as [e' He']; [| reflexivity | reflexivity |].
  - apply list_elem_of_In. simpl. tauto.
  - rewrite He'. vm_compute in He'. by injection He' as <-.
Defined.
